(** * video-backend: the format selector and the metadata projector

    A shallow embedding of [app/core/downloader.py] (class
    [VideoDownloader]), of the limit in [app/config.py] and of the
    exception classes of [app/utils/exceptions.py], with the properties
    of platform detection, format selection, metadata projection and the
    size check.

    Conventions of the embedding.
    - A Python [str] is a Rocq [string], one character for each byte of
      its UTF-8 form; [lower], [capitalize], [strip] and slices are those
      of Python on the strings that are ASCII ([is_ascii]), which is
      where the statements about them are made.
    - A Python [dict] with a fixed set of keys is a record whose fields
      are of type [entry A]: the key is missing, bound to [None], or
      bound to a value.  [d.get(k)] and [d.get(k, default)] are [get]
      and [get_default].
    - A Python [int] is a [Z]; the numeric fields of the extractor
      (duration, sizes, heights, counts) are ints.  The [float] computed
      for a size in MB is given by the two-decimal number it is the
      nearest double to (the one Python prints):
      [filesize / (1024 * 1024)] is exact in binary64 for sizes below
      2^53 bytes ([exact_size]), which is where the statements about
      the size in MB are made, and [round(x, 2)] is the nearest
      multiple of 1/100, ties to even.
    - A raised exception is the [Raise] branch of [result]. *)

From Stdlib Require Import ZArith QArith Qabs Ascii String DecimalString Lia.
From stdpp Require Import base list strings sorting gmap.

Open Scope string_scope.
Open Scope Z_scope.

(** ** Exceptions *)

Inductive exn : Type :=
| AttributeError
| OverflowError
| IndexError
| InvalidURLException (url : string)
| VideoUnavailableException
| DownloadFailedException
| FileTooLargeException (size_mb max_mb : Z)
| TimeoutException.

Inductive result (A : Type) : Type :=
| Ok (a : A)
| Raise (e : exn).
Arguments Ok {A} a.
Arguments Raise {A} e.

Definition bind {A B : Type} (r : result A) (k : A -> result B) : result B :=
  match r with
  | Ok a => k a
  | Raise e => Raise e
  end.

Notation "'let*' x ':=' r 'in' k" := (bind r (fun x => k))
  (at level 10, x name, r at level 100, k at level 200).

(** ** Python values *)

Module Py.

(** The binding of a key in a dict. *)
Inductive entry (A : Type) : Type :=
| Missing
| PyNone
| Has (a : A).
Arguments Missing {A}.
Arguments PyNone {A}.
Arguments Has {A} a.

(** [d.get(k)]: [None] stands for Python's None. *)
Definition get {A : Type} (e : entry A) : option A :=
  match e with
  | Has a => Some a
  | Missing | PyNone => None
  end.

(** [d.get(k, default)]: the default replaces a missing key only. *)
Definition get_default {A : Type} (e : entry A) (default : A) : option A :=
  match e with
  | Has a => Some a
  | Missing => Some default
  | PyNone => None
  end.

(** Truth value of an optional [str] and of an optional [int]. *)
Definition truthy_str (o : option string) : bool :=
  match o with
  | Some s => negb (String.eqb s "")
  | None => false
  end.

Definition truthy_int (o : option Z) : bool :=
  match o with
  | Some n => negb (n =? 0)
  | None => false
  end.

(** [a or b] on optional strings and on optional ints. *)
Definition or_str (a b : option string) : option string :=
  if truthy_str a then a else b.

Definition or_int (a b : option Z) : option Z :=
  if truthy_int a then a else b.

(** *** Strings *)

Definition is_upper (c : ascii) : bool :=
  (65 <=? nat_of_ascii c)%nat && (nat_of_ascii c <=? 90)%nat.

Definition is_lower (c : ascii) : bool :=
  (97 <=? nat_of_ascii c)%nat && (nat_of_ascii c <=? 122)%nat.

Definition lower_char (c : ascii) : ascii :=
  if is_upper c then ascii_of_nat (nat_of_ascii c + 32) else c.

Definition upper_char (c : ascii) : ascii :=
  if is_lower c then ascii_of_nat (nat_of_ascii c - 32) else c.

(** [s.lower()] *)
Fixpoint lower (s : string) : string :=
  match s with
  | EmptyString => EmptyString
  | String c s' => String (lower_char c) (lower s')
  end.

(** [s.capitalize()] *)
Definition capitalize (s : string) : string :=
  match s with
  | EmptyString => EmptyString
  | String c s' => String (upper_char c) (lower s')
  end.

(** [p in s] *)
Fixpoint contains (p s : string) : bool :=
  String.prefix p s ||
  match s with
  | EmptyString => false
  | String _ s' => contains p s'
  end.

(** [s[:n]] *)
Definition slice_to (n : nat) (s : string) : string := String.substring 0 n s.

(** [s.split('.')[0]] *)
Fixpoint split_dot_head (s : string) : string :=
  match s with
  | EmptyString => EmptyString
  | String c s' => if Ascii.eqb c "."%char then EmptyString
                   else String c (split_dot_head s')
  end.

(** [o.lower()] where [o] may be None. *)
Definition lower_of (o : option string) : result string :=
  match o with
  | Some s => Ok (lower s)
  | None => Raise AttributeError
  end.

(** ["%d" % n] *)
Definition str_int (n : Z) : string := NilZero.string_of_int (Z.to_int n).

Fixpoint zeros (n : nat) : string :=
  match n with
  | O => EmptyString
  | S n' => String "0"%char (zeros n')
  end.

(** ["%0wd" % n] *)
Definition str_int_pad (w : nat) (n : Z) : string :=
  if n <? 0
  then "-" +:+ zeros (w - 1 - String.length (str_int (- n))) +:+ str_int (- n)
  else zeros (w - String.length (str_int n)) +:+ str_int n.

(** *** [re.search] for a pattern that is an alternation of literals *)

Definition re_search (alternatives : list string) (s : string) : bool :=
  existsb (fun p => contains p s) alternatives.

End Py.

Import Py.

(** ** Platform detection *)

(** [PLATFORM_PATTERNS], in the insertion order of the dict.  Each
    regular expression is an alternation of literals whose dots are
    escaped, given here by the list of its literals. *)
Definition PLATFORM_PATTERNS : list (string * list string) :=
  [ ("instagram", ["instagram.com"; "instagr.am"]);
    ("tiktok",    ["tiktok.com"; "vm.tiktok.com"]);
    ("youtube",   ["youtube.com"; "youtu.be"]) ].

Fixpoint first_platform (url_lower : string)
    (patterns : list (string * list string)) : option string :=
  match patterns with
  | [] => None
  | (platform, pattern) :: rest =>
      if re_search pattern url_lower then Some platform
      else first_platform url_lower rest
  end.

Definition detect_platform (url : string) : result string :=
  let url_lower := lower url in
  match first_platform url_lower PLATFORM_PATTERNS with
  | Some platform => Ok platform
  | None => Raise (InvalidURLException url)
  end.


(** ** Numbers of the projection *)

Module Num.

(** [round(x)] to the nearest integer, ties to the even one. *)
Definition round_half_even (q : Q) : Z :=
  let n := Qnum q in
  let d := Zpos (Qden q) in
  let f := n / d in
  match 2 * (n mod d) ?= d with
  | Lt => f
  | Gt => f + 1
  | Eq => if Z.even f then f else f + 1
  end.

(** [round(x, 2)] *)
Definition round2 (q : Q) : Q := Qred (round_half_even (q * 100) # 100).

(** [n / (1024 * 1024)] for an int [n] *)
Definition div_mb (n : Z) : Q := (inject_Z n / inject_Z (1024 * 1024))%Q.

(** [int(x)]: truncation towards zero. *)
Definition int_of (q : Q) : Z := Z.quot (Qnum q) (Zpos (Qden q)).

(** Truth value of a float. *)
Definition truthy (q : Q) : bool := negb (Qeq_bool q 0).

(** [x > n] for a float [x] and an int [n]. *)
Definition gt_int (q : Q) (n : Z) : bool := negb (Qle_bool q (inject_Z n)).

End Num.

(** ** [datetime.timedelta] *)

Module datetime.

Record timedelta : Type := {
  days : Z;
  seconds : Z;
  microseconds : Z
}.

(** [timedelta(seconds=n)] for an int [n]: normalised to
    [0 <= seconds < 86400]; the day count is limited to nine digits. *)
Definition of_seconds (n : Z) : result timedelta :=
  let d := n / 86400 in
  let s := n mod 86400 in
  if Z.abs d >? 999999999 then Raise OverflowError
  else Ok {| days := d; seconds := s; microseconds := 0 |}.

(** [str(t)] *)
Definition str (t : timedelta) : string :=
  let mm := seconds t / 60 in
  let ss := seconds t mod 60 in
  let hh := mm / 60 in
  let mm := mm mod 60 in
  let s := str_int hh +:+ ":" +:+ str_int_pad 2 mm +:+ ":" +:+ str_int_pad 2 ss in
  let s := if days t =? 0 then s
           else str_int (days t) +:+ " day"
                +:+ (if Z.abs (days t) =? 1 then "" else "s") +:+ ", " +:+ s in
  if microseconds t =? 0 then s
  else s +:+ "." +:+ str_int_pad 6 (microseconds t).

End datetime.

(** ** The dicts *)

(** A format descriptor of the extractor. *)
Module Format.
Record t : Type := {
  format_id : entry string;
  format_note : entry string;
  ext : entry string;
  quality : entry Z;
  filesize : entry Z;
  height : entry Z;
  resolution : entry string;
  fps : entry Z;
  vcodec : entry string;
  acodec : entry string;
  url : entry string
}.

(** The empty dict [{}]. *)
Definition empty : t := {|
  format_id := Missing; format_note := Missing; ext := Missing;
  quality := Missing; filesize := Missing; height := Missing;
  resolution := Missing; fps := Missing; vcodec := Missing;
  acodec := Missing; url := Missing |}.
End Format.

(** The record of the extractor.  [formats] holds the list under the
    key ['formats']; a missing key or None is the empty list, which the
    code treats alike ([info.get('formats', [])] is only used after a
    truth test). *)
Module Info.
Record t : Type := {
  title : entry string;
  duration : entry Z;
  thumbnail : entry string;
  url : entry string;
  uploader : entry string;
  channel : entry string;
  view_count : entry Z;
  like_count : entry Z;
  description : entry string;
  filesize : entry Z;
  formats : list Format.t
}.
End Info.

(** An entry of the list built by [_parse_formats]. *)
Module Parsed.
Record t : Type := {
  format_id : option string;
  format_note : option string;
  ext : option string;
  quality : option Z;
  filesize : option Z;
  filesize_mb : option Q;
  resolution : string;
  fps : option Z;
  vcodec : option string;
  acodec : option string
}.
End Parsed.

(** The dict returned by [_parse_video_info]. *)
Module Video.
Record t : Type := {
  title : option string;
  duration : option Z;
  duration_string : option string;
  thumbnail : option string;
  direct_url : option string;
  platform : string;
  uploader : option string;
  view_count : option Z;
  like_count : option Z;
  description : option string;
  filesize_mb : option Q;
  resolution : string;
  ext : option string;
  formats : list Parsed.t
}.
End Video.

(** ** Settings ([app/config.py]) *)

Record Settings : Type := {
  RATE_LIMIT_PER_MINUTE : Z;
  MAX_DOWNLOAD_SIZE_MB : Z;
  DOWNLOAD_TIMEOUT_SECONDS : Z
}.

Definition settings : Settings := {|
  RATE_LIMIT_PER_MINUTE := 30;
  MAX_DOWNLOAD_SIZE_MB := 500;
  DOWNLOAD_TIMEOUT_SECONDS := 300
|}.

(** ** Format selection *)

(** [fmt.get('vcodec') != 'none'] *)
Definition has_video (fmt : Format.t) : bool :=
  match get (Format.vcodec fmt) with
  | Some v => negb (String.eqb v "none")
  | None => true
  end.

(** The sort key [(x.get('height') or 0, x.get('filesize') or 0)]. *)
Definition or_zero (o : option Z) : Z :=
  match or_int o (Some 0) with
  | Some n => n
  | None => 0
  end.

Definition sort_key (x : Format.t) : Z * Z :=
  (or_zero (get (Format.height x)), or_zero (get (Format.filesize x))).

(** Order of tuples of ints. *)
Definition key_lt (a b : Z * Z) : bool :=
  (fst a <? fst b) || ((fst a =? fst b) && (snd a <? snd b)).

(** [list.sort(key=sort_key, reverse=True)]: a stable sort; with
    [reverse=True] the keys descend and elements of equal key keep
    their order.  The result is the one of the insertion below. *)
Fixpoint insert_desc (x : Format.t) (l : list Format.t) : list Format.t :=
  match l with
  | [] => [x]
  | y :: l' =>
      if key_lt (sort_key x) (sort_key y) then y :: insert_desc x l'
      else x :: y :: l'
  end.

Fixpoint sort_reverse (l : list Format.t) : list Format.t :=
  match l with
  | [] => []
  | x :: l' => insert_desc x (sort_reverse l')
  end.

(** The test of the TikTok loop on one format. *)
Definition tiktok_accepts (fmt : Format.t) : result bool :=
  let* format_note := lower_of (get_default (Format.format_note fmt) "") in
  if contains "download" format_note || negb (contains "watermark" format_note)
  then (if has_video fmt then Ok true else Ok false)
  else Ok false.

(** The TikTok loop: the format it returns, if any. *)
Fixpoint tiktok_scan (formats : list Format.t) : result (option Format.t) :=
  match formats with
  | [] => Ok None
  | fmt :: rest =>
      let* accepted := tiktok_accepts fmt in
      if accepted then Ok (Some fmt) else tiktok_scan rest
  end.

(** [video_formats] after the sort. *)
Definition sorted_video_formats (formats : list Format.t) : list Format.t :=
  sort_reverse (filter (fun f => has_video f = true) formats).

(** The default rule. *)
Definition highest_quality (formats : list Format.t) : result Format.t :=
  let video_formats := filter (fun f => has_video f = true) formats in
  match video_formats with
  | _ :: _ =>
      match sort_reverse video_formats with
      | best :: _ => Ok best
      | [] => Raise IndexError
      end
  | [] =>
      match formats with
      | first :: _ => Ok first
      | [] => Raise IndexError
      end
  end.

Definition _select_best_format (formats : list Format.t) (platform : string)
    : result Format.t :=
  match formats with
  | [] => Ok Format.empty
  | _ :: _ =>
      let* found := (if String.eqb platform "tiktok"
                     then tiktok_scan formats else Ok None) in
      match found with
      | Some fmt => Ok fmt
      | None => highest_quality formats
      end
  end.

(** ** The list of formats for the frontend *)

(** [fmt.get('resolution') or f"{fmt.get('height', 'unknown')}p"] *)
Definition resolution_label (fmt : Format.t) : string :=
  let resolution := get (Format.resolution fmt) in
  if truthy_str resolution then default "" resolution
  else match Format.height fmt with
       | Missing => "unknown"
       | PyNone => "None"
       | Has h => str_int h
       end +:+ "p".

(** [round(filesize / (1024 * 1024), 2) if filesize else None] *)
Definition size_mb (filesize : option Z) : option Q :=
  if truthy_int filesize
  then Some (Num.round2 (Num.div_mb (default 0 filesize)))
  else None.

Definition summary (fmt : Format.t) : Parsed.t :=
  let filesize := get (Format.filesize fmt) in
  {| Parsed.format_id := get (Format.format_id fmt);
     Parsed.format_note := get (Format.format_note fmt);
     Parsed.ext := get (Format.ext fmt);
     Parsed.quality := get (Format.quality fmt);
     Parsed.filesize := filesize;
     Parsed.filesize_mb := size_mb filesize;
     Parsed.resolution := resolution_label fmt;
     Parsed.fps := get (Format.fps fmt);
     Parsed.vcodec := get (Format.vcodec fmt);
     Parsed.acodec := get (Format.acodec fmt) |}.

Fixpoint _parse_formats (formats : list Format.t) : list Parsed.t :=
  match formats with
  | [] => []
  | fmt :: rest =>
      if negb (has_video fmt) then _parse_formats rest
      else summary fmt :: _parse_formats rest
  end.

(** ** The projection *)

(** [str(timedelta(seconds=duration)).split('.')[0] if duration else None] *)
Definition duration_str (duration : option Z) : result (option string) :=
  if truthy_int duration then
    let* t := datetime.of_seconds (default 0 duration) in
    Ok (Some (split_dot_head (datetime.str t)))
  else Ok None.

Definition _parse_video_info (info : Info.t) (platform : string)
    : result Video.t :=
  let formats := Info.formats info in
  let* best_format := _select_best_format formats platform in
  let duration := get_default (Info.duration info) 0 in
  let* duration_str := duration_str duration in
  let filesize := or_int (get (Format.filesize best_format))
                         (get (Info.filesize info)) in
  let filesize_mb := size_mb filesize in
  let direct_url := or_str (get (Format.url best_format))
                           (get (Info.url info)) in
  let available_formats :=
    match formats with
    | _ :: _ => _parse_formats formats
    | [] => []
    end in
  Ok {| Video.title := get_default (Info.title info) "Unknown";
        Video.duration := duration;
        Video.duration_string := duration_str;
        Video.thumbnail := get (Info.thumbnail info);
        Video.direct_url := direct_url;
        Video.platform := capitalize platform;
        Video.uploader := or_str (get (Info.uploader info))
                                 (get (Info.channel info));
        Video.view_count := get (Info.view_count info);
        Video.like_count := get (Info.like_count info);
        Video.description :=
          if truthy_str (get (Info.description info))
          then slice_to 500 <$> get_default (Info.description info) ""
          else None;
        Video.filesize_mb := filesize_mb;
        Video.resolution := resolution_label best_format;
        Video.ext := get_default (Format.ext best_format) "mp4";
        Video.formats := take 5 available_formats |}.

(** ** The size check of [get_video_info] *)

(** Lines 141-145: [filesize_mb = result.get('filesize_mb', 0)], then
    the comparison with [settings.MAX_DOWNLOAD_SIZE_MB]. *)
Definition check_file_size (cfg : Settings) (video : Video.t) : result unit :=
  let filesize_mb := Video.filesize_mb video in
  let max_size := MAX_DOWNLOAD_SIZE_MB cfg in
  match filesize_mb with
  | Some mb =>
      if Num.truthy mb && Num.gt_int mb max_size
      then Raise (FileTooLargeException (Num.int_of mb) max_size)
      else Ok tt
  | None => Ok tt
  end.

(** ** [get_video_info]

    The outcome of [_extract_info_sync] in the executor is an input of
    the model: the value returned (None when it is falsy), a
    [yt_dlp.utils.DownloadError] with its message, or an
    [asyncio.TimeoutError].  The detail messages of the exceptions
    raised by the handlers are not modelled. *)

Inductive extraction : Type :=
| Extracted (info : option Info.t)
| DownloadError (error_msg : string)
| AsyncTimeoutError.

(** What the [try] block raises, before the handlers. *)
Inductive raised : Type :=
| OfDownloadError (error_msg : string)
| OfTimeoutError
| OfException (e : exn).

Definition try_block (cfg : Settings) (url : string) (outcome : extraction)
    : raised + Video.t :=
  match detect_platform url with
  | Raise e => inl (OfException e)
  | Ok platform =>
      match outcome with
      | DownloadError error_msg => inl (OfDownloadError error_msg)
      | AsyncTimeoutError => inl OfTimeoutError
      | Extracted None => inl (OfException VideoUnavailableException)
      | Extracted (Some info) =>
          match _parse_video_info info platform with
          | Raise e => inl (OfException e)
          | Ok video =>
              match check_file_size cfg video with
              | Raise e => inl (OfException e)
              | Ok _ => inr video
              end
          end
      end
  end.

(** The three [except] clauses, in their order. *)
Definition handlers (r : raised) : exn :=
  match r with
  | OfDownloadError error_msg =>
      let m := lower error_msg in
      if contains "private" m || contains "not available" m
      then VideoUnavailableException
      else if contains "copyright" m then VideoUnavailableException
      else DownloadFailedException
  | OfTimeoutError => TimeoutException
  | OfException _ => DownloadFailedException
  end.

Definition get_video_info (cfg : Settings) (url : string)
    (outcome : extraction) : result Video.t :=
  match try_block cfg url outcome with
  | inr video => Ok video
  | inl r => Raise (handlers r)
  end.

(** ** Notions of the specification *)

(** [s] contains [p] when case is ignored: a piece of [s] is [p] up to
    the case of its letters. *)
Definition ci_contains (p s : string) : Prop :=
  exists pre mid post, s = pre +:+ mid +:+ post /\ lower mid = p.

(** The descriptor carries the "no video" sentinel. *)
Definition no_video (fmt : Format.t) : Prop :=
  get (Format.vcodec fmt) = Some "none".

(** The note of a descriptor is a string, or the key is missing. *)
Definition note_is_text (fmt : Format.t) : Prop :=
  Format.format_note fmt <> PyNone.

(** The notes the TikTok loop reads are text: on tiktok every note of
    the list is a string or missing (no condition on other platforms). *)
Definition notes_are_text (formats : list Format.t) (platform : string) : Prop :=
  platform = "tiktok" -> Forall note_is_text formats.

(** The text of the note, empty when the key is missing. *)
Definition note_text (fmt : Format.t) : string :=
  default "" (get_default (Format.format_note fmt) "").

(** The TikTok rule on the note, case ignored. *)
Definition note_passes (fmt : Format.t) : Prop :=
  ci_contains "download" (note_text fmt)
  \/ ~ ci_contains "watermark" (note_text fmt).

(** The TikTok rule read on the note as it is written. *)
Definition note_passes_verbatim (fmt : Format.t) : bool :=
  contains "download" (note_text fmt)
  || negb (contains "watermark" (note_text fmt)).

(** Order of the sort keys: [a] is at most [b]. *)
Definition key_le (a b : Z * Z) : Prop :=
  fst a < fst b \/ (fst a = fst b /\ snd a <= snd b).

(** The duration is within the range of [timedelta]. *)
Definition duration_in_range (info : Info.t) : Prop :=
  Z.abs (default 0 (get_default (Info.duration info) 0) / 86400) <= 999999999.

(** The byte size the projection uses is known and is [n]: the size of
    the chosen format, or else the top-level size of the record. *)
Definition known_size (best : Format.t) (info : Info.t) (n : Z) : Prop :=
  n <> 0
  /\ (get (Format.filesize best) = Some n
      \/ ((get (Format.filesize best) = None
           \/ get (Format.filesize best) = Some 0)
          /\ get (Info.filesize info) = Some n)).

(** The string has no ['.'], so that [split('.')[0]] keeps all of it
    and goes on in what follows it. *)
Definition dot_free (a : string) : Prop :=
  forall b, split_dot_head (a +:+ b) = a +:+ split_dot_head b.

(** Two decimal digits. *)
Definition digit (n : Z) : ascii := ascii_of_nat (48 + Z.to_nat n).

Definition two_digits (n : Z) : string :=
  String (digit (n / 10)) (String (digit (n mod 10)) EmptyString).

(** [H:MM:SS] for a number of seconds below one day; the hours are
    always written. *)
Definition hms (s : Z) : string :=
  str_int (s / 3600) +:+ ":" +:+ two_digits (s / 60 mod 60)
  +:+ ":" +:+ two_digits (s mod 60).

(** ["N day, "] or ["N days, "]. *)
Definition day_prefix (n : Z) : string :=
  str_int n +:+ " day" +:+ (if n =? 1 then "" else "s") +:+ ", ".

(** The string is ASCII: every character is below 128.  On such
    strings [lower], [strip] and the slices are those of Python. *)
Definition is_ascii (s : string) : bool :=
  forallb (fun c => (nat_of_ascii c <? 128)%nat) (list_ascii_of_string s).

(** The size is absent or below 2^53 bytes in magnitude: binary64
    holds [size / (1024 * 1024)] exactly, and nothing overflows. *)
Definition exact_size (size : option Z) : bool :=
  match size with
  | Some n => Z.abs n <? 2 ^ 53
  | None => true
  end.

(** Every size of the record is such. *)
Definition sizes_exact (info : Info.t) : bool :=
  exact_size (get (Info.filesize info))
  && forallb (fun f => exact_size (get (Format.filesize f))) (Info.formats info).

(** ** Sample records *)

Module Sample.

(** A video format with a note, a height and a size. *)
Definition video (id note : string) (height filesize : Z) : Format.t := {|
  Format.format_id := Has id;
  Format.format_note := Has note;
  Format.ext := Has "mp4";
  Format.quality := Missing;
  Format.filesize := Has filesize;
  Format.height := Has height;
  Format.resolution := Missing;
  Format.fps := Has 30;
  Format.vcodec := Has "avc1";
  Format.acodec := Has "mp4a";
  Format.url := Has ("https://cdn.example/" +:+ id) |}.

(** An audio-only format. *)
Definition audio (id : string) (height : Z) : Format.t := {|
  Format.format_id := Has id;
  Format.format_note := Missing;
  Format.ext := Has "m4a";
  Format.quality := Missing;
  Format.filesize := PyNone;
  Format.height := Has height;
  Format.resolution := Missing;
  Format.fps := Missing;
  Format.vcodec := Has "none";
  Format.acodec := Has "mp4a";
  Format.url := Has ("https://cdn.example/" +:+ id) |}.

(** The formats of the end-to-end scenario. *)
Definition scenario : list Format.t :=
  [ video "480" "medium" 480 1000000;
    video "1080" "hd" 1080 2000000;
    audio "720" 720 ].

(** Two TikTok formats: a watermarked one, then a direct one. *)
Definition watermarked : Format.t := video "wm" "Watermarked" 720 3000000.
Definition direct : Format.t := video "play" "Direct video" 540 2000000.

(** A video format whose URL is None, and one of size 0. *)
Definition without_url : Format.t := {|
  Format.format_id := Has "hls";
  Format.format_note := Has "hd";
  Format.ext := Has "mp4";
  Format.quality := Missing;
  Format.filesize := Has 2000000;
  Format.height := Has 1080;
  Format.resolution := Has "1920x1080";
  Format.fps := Has 30;
  Format.vcodec := Has "avc1";
  Format.acodec := Has "mp4a";
  Format.url := PyNone |}.

Definition zero_size : Format.t := video "z" "hd" 720 0.

(** A projected record with the given size in MB. *)
Definition projected (filesize_mb : option Q) : Video.t := {|
  Video.title := Some "Sample";
  Video.duration := Some 45;
  Video.duration_string := Some "0:00:45";
  Video.thumbnail := None;
  Video.direct_url := Some "https://cdn.example/v";
  Video.platform := "Youtube";
  Video.uploader := Some "channel";
  Video.view_count := None;
  Video.like_count := None;
  Video.description := None;
  Video.filesize_mb := filesize_mb;
  Video.resolution := "1080p";
  Video.ext := Some "mp4";
  Video.formats := [] |}.

(** A record of the extractor with the given formats and no URL. *)
Definition record (duration filesize : entry Z) (formats : list Format.t)
    : Info.t := {|
  Info.title := Has "Sample";
  Info.duration := duration;
  Info.thumbnail := Missing;
  Info.url := Missing;
  Info.uploader := PyNone;
  Info.channel := Has "channel";
  Info.view_count := Has 10000;
  Info.like_count := Missing;
  Info.description := Has "A sample video";
  Info.filesize := filesize;
  Info.formats := formats |}.

End Sample.

(** A record whose only format has 501 MB, and the URL asked for. *)
Module Case.

Definition too_large : Info.t :=
  Sample.record (Has 125) Missing [Sample.video "22" "hd" 1080 525336576].

Definition url : string := "https://www.youtube.com/watch?v=abc".

End Case.

(** * The rest of the service *)

(** ** More of [str]: [strip], [split], [join] *)

Module PyStr.

(** [c.isspace()] on the ASCII range: tab to carriage return, the four
    separators 28-31, and the space. *)
Definition is_space (c : ascii) : bool :=
  let n := nat_of_ascii c in
  ((9 <=? n)%nat && (n <=? 13)%nat) || ((28 <=? n)%nat && (n <=? 32)%nat).

(** [s.lstrip()] *)
Fixpoint lstrip (s : string) : string :=
  match s with
  | EmptyString => EmptyString
  | String c s' => if is_space c then lstrip s' else s
  end.

(** [s.rstrip()] *)
Fixpoint rstrip (s : string) : string :=
  match s with
  | EmptyString => EmptyString
  | String c s' =>
      match rstrip s' with
      | EmptyString => if is_space c then EmptyString else String c EmptyString
      | r => String c r
      end
  end.

(** [s.strip()] *)
Definition strip (s : string) : string := rstrip (lstrip s).

(** [s.split(sep)] for a separator of one character. *)
Fixpoint split (sep : ascii) (s : string) : list string :=
  match s with
  | EmptyString => [EmptyString]
  | String c s' =>
      if Ascii.eqb c sep then EmptyString :: split sep s'
      else match split sep s' with
           | x :: rest => String c x :: rest
           | [] => [String c EmptyString]
           end
  end.

(** [sep.join(l)] for a separator of one character. *)
Fixpoint join (sep : ascii) (l : list string) : string :=
  match l with
  | [] => EmptyString
  | [x] => x
  | x :: rest => x +:+ String sep (join sep rest)
  end.

End PyStr.

(** ** [Settings.cors_origins] ([app/config.py])

    The property reads the field [ALLOWED_ORIGINS], given here as its
    argument. *)

Definition ALLOWED_ORIGINS : string :=
  "http://localhost:3000,http://127.0.0.1:3000".

Definition cors_origins (allowed_origins : string) : list string :=
  PyStr.strip <$> PyStr.split ","%char allowed_origins.

(** ** [VideoInfoRequest.validate_url] ([app/models/schemas.py])

    The two [ValueError]s of the validator, without their messages. *)

Inductive value_error : Type :=
| EmptyURL
| UnsupportedURL.

Definition supported : list string :=
  ["instagram.com"; "tiktok.com"; "youtube.com"; "youtu.be"; "instagr.am"].

Definition validate_url (v : string) : value_error + string :=
  let v := PyStr.strip v in
  if String.eqb v "" then inl EmptyURL
  else if negb (existsb (fun platform => contains platform (lower v)) supported)
       then inl UnsupportedURL
       else inr v.

(** ** The options of the extractor *)

(** The values of the option dicts. *)
Inductive opt_value : Type :=
| OBool (b : bool)
| OInt (n : Z)
| OStr (s : string)
| OHeaders (h : gmap string string).

(** [self.base_opts] as [__init__] sets it. *)
Definition base_opts : gmap string opt_value :=
  <["quiet" := OBool true]>
  (<["no_warnings" := OBool true]>
  (<["extract_flat" := OBool false]>
  (<["socket_timeout" := OInt 30]>
  (<["retries" := OInt 3]>
  (<["fragment_retries" := OInt 3]>
  (<["skip_unavailable_fragments" := OBool true]> ∅)))))).

(** [{**self.base_opts, 'format': ..., 'http_headers': {...}}]: the
    keys written after [**self.base_opts] replace its bindings. *)
Definition get_tiktok_opts (self_base_opts : gmap string opt_value)
    : gmap string opt_value :=
  <["http_headers" := OHeaders
      (<["User-Agent" := "Mozilla/5.0 (Windows NT 10.0; Win64; x64) AppleWebKit/537.36 (KHTML, like Gecko) Chrome/120.0.0.0 Safari/537.36"]>
      (<["Accept" := "text/html,application/xhtml+xml,application/xml;q=0.9,*/*;q=0.8"]>
      (<["Accept-Language" := "en-us,en;q=0.5"]>
      (<["Sec-Fetch-Mode" := "navigate"]> ∅))))]>
  (<["format" := OStr "best[ext=mp4][vcodec^=avc1]/best[ext=mp4]/best"]>
   self_base_opts).

Definition get_instagram_opts (self_base_opts : gmap string opt_value)
    : gmap string opt_value :=
  <["http_headers" := OHeaders
      (<["User-Agent" := "Mozilla/5.0 (iPhone; CPU iPhone OS 16_0 like Mac OS X) AppleWebKit/605.1.15"]>
      (<["Accept" := "*/*"]>
      (<["Accept-Language" := "en-US,en;q=0.9"]> ∅)))]>
  (<["format" := OStr "best[ext=mp4]/best"]> self_base_opts).

Definition get_youtube_opts (self_base_opts : gmap string opt_value)
    : gmap string opt_value :=
  <["merge_output_format" := OStr "mp4"]>
  (<["format" := OStr "bestvideo[ext=mp4]+bestaudio[ext=m4a]/best[ext=mp4]/best"]>
   self_base_opts).

(** What [get_platform_opts] returns: a new dict, or the object
    [self.base_opts] itself (the default [lambda: self.base_opts]). *)
Inductive dict_ref : Type :=
| NewDict (d : gmap string opt_value)
| SelfBaseOpts.

Definition get_platform_opts (self_base_opts : gmap string opt_value)
    (platform : string) : dict_ref :=
  if String.eqb platform "tiktok" then NewDict (get_tiktok_opts self_base_opts)
  else if String.eqb platform "instagram"
       then NewDict (get_instagram_opts self_base_opts)
  else if String.eqb platform "youtube"
       then NewDict (get_youtube_opts self_base_opts)
  else SelfBaseOpts.

(** Lines 122-123 of [get_video_info]: [ydl_opts = get_platform_opts(..)]
    then [ydl_opts['noplaylist'] = True].  The result is the dict
    given to the extractor and [self.base_opts] after the assignment,
    which writes into [self.base_opts] when [ydl_opts] is that object. *)
Definition prepare_opts (self_base_opts : gmap string opt_value)
    (platform : string)
    : gmap string opt_value * gmap string opt_value :=
  match get_platform_opts self_base_opts platform with
  | NewDict d => (<["noplaylist" := OBool true]> d, self_base_opts)
  | SelfBaseOpts =>
      let d := <["noplaylist" := OBool true]> self_base_opts in (d, d)
  end.

(** ** The route [fetch_video_info] ([app/api/routes/download.py]) *)

(** The status code of the exception classes of
    [app/utils/exceptions.py]; the exceptions of Python itself are no
    [VideoDownloaderException]. *)
Definition status_code (e : exn) : option Z :=
  match e with
  | InvalidURLException _ => Some 400
  | VideoUnavailableException => Some 404
  | DownloadFailedException => Some 500
  | FileTooLargeException _ _ => Some 413
  | TimeoutException => Some 408
  | AttributeError | OverflowError | IndexError => None
  end.

(** The outcome of the route: the response model built from the dict,
    or an [HTTPException] with its status code. *)
Inductive reply : Type :=
| Reply (video : Video.t)
| HTTPException (status : Z).

Section Route.

(** [VideoInfoResponse(success=True, **info)]: [title] and [direct_url]
    are required [str] fields, which None does not satisfy;
    [other_fields_valid] is the validation of the remaining fields by
    the response model. *)
Variable other_fields_valid : Video.t -> bool.

Definition response_model (info : Video.t) : option Video.t :=
  match Video.title info, Video.direct_url info with
  | Some _, Some _ => if other_fields_valid info then Some info else None
  | _, _ => None
  end.

(** What the [try] block of the route raises: a
    [VideoDownloaderException], or another exception. *)
Inductive route_raised : Type :=
| Downloader (e : exn)
| Other.

(** [video_request] is the validated URL of the body, if there is a
    body; [url] is the query parameter; [extract] is the outcome of the
    extraction for a URL. *)
Definition route_try (cfg : Settings) (extract : string -> extraction)
    (video_request url : option string) : route_raised + Video.t :=
  let video_url :=
    match video_request with
    | Some u => Some u
    | None => if truthy_str url then PyStr.strip <$> url else None
    end in
  match video_url with
  | None => inl Other
  | Some video_url =>
      match get_video_info cfg video_url (extract video_url) with
      | Raise e =>
          match status_code e with
          | Some _ => inl (Downloader e)
          | None => inl Other
          end
      | Ok info =>
          match response_model info with
          | Some response => inr response
          | None => inl Other
          end
      end
  end.

Definition fetch_video_info (cfg : Settings) (extract : string -> extraction)
    (video_request url : option string) : reply :=
  match route_try cfg extract video_request url with
  | inr response => Reply response
  | inl (Downloader e) => HTTPException (default 500 (status_code e))
  | inl Other => HTTPException 500
  end.

End Route.

(** * Properties *)

(** ** Strings *)

Section StringFacts.

Lemma prefix_app (p s : string) :
  String.prefix p s = true <-> exists post, s = p +:+ post.
Proof.
  revert s. induction p as [|c p IH]; intros s.
  - split; [intros _; by exists s | by destruct s].
  - destruct s as [|d s]; simpl.
    + split; [done | intros [post H]; discriminate H].
    + destruct (Ascii.ascii_dec c d) as [->|Hne].
      * rewrite IH. split; intros [post H]; exists post.
        -- by rewrite H.
        -- by injection H.
      * split; [done | intros [post H]; injection H; congruence].
Qed.

Lemma contains_app (p s : string) :
  contains p s = true <-> exists pre post, s = pre +:+ p +:+ post.
Proof.
  induction s as [|c s IH].
  - cbn [contains]. rewrite orb_false_r, prefix_app. split.
    + intros [post H]. by exists EmptyString, post.
    + intros [pre [post H]]. destruct pre; [by exists post | discriminate H].
  - cbn [contains]. rewrite orb_true_iff, prefix_app, IH. split.
    + intros [[post H]|[pre [post H]]].
      * by exists EmptyString, post.
      * exists (String c pre), post. simpl. by rewrite H.
    + intros [pre [post H]]. destruct pre as [|d pre].
      * left. by exists post.
      * right. exists pre, post. simpl in H. by injection H.
Qed.

Lemma lower_app (a b : string) : lower (a +:+ b) = lower a +:+ lower b.
Proof. induction a as [|c a IH]; simpl; [done | by rewrite IH]. Qed.

Lemma lower_split (s a b : string) :
  lower s = a +:+ b ->
  exists a' b', s = a' +:+ b' /\ lower a' = a /\ lower b' = b.
Proof.
  revert s. induction a as [|c a IH]; intros s H.
  - by exists EmptyString, s.
  - destruct s as [|d s]; [discriminate H|].
    simpl in H. injection H as Hc Hs.
    destruct (IH _ Hs) as (a' & b' & -> & Ha & Hb).
    exists (String d a'), b'. simpl. by rewrite Hc, Ha.
Qed.

(** Looking for [p] in the lower-cased string is looking for it with
    the case ignored. *)
Lemma contains_lower (p s : string) :
  contains p (lower s) = true <-> ci_contains p s.
Proof.
  rewrite contains_app. split.
  - intros (pre & post & H).
    apply lower_split in H as (pre' & rest & -> & _ & H).
    apply lower_split in H as (mid & post' & -> & Hmid & _).
    by exists pre', mid, post'.
  - intros (pre & mid & post & -> & <-).
    exists (lower pre), (lower post). by rewrite !lower_app.
Qed.

Lemma not_contains_lower (p s : string) :
  contains p (lower s) = false <-> ~ ci_contains p s.
Proof. rewrite <- contains_lower. by destruct (contains p (lower s)). Qed.

End StringFacts.

(** ** Platform detection *)


Example detect_tiktok :
  detect_platform "https://www.TikTok.com/@user/video/123" = Ok "tiktok".
Proof. reflexivity. Qed.

Example detect_invalid :
  detect_platform "https://invalid-site.com/video"
  = Raise (InvalidURLException "https://invalid-site.com/video").
Proof. reflexivity. Qed.


(** ** The sort of the default rule *)

Section Sort.

Implicit Types (x y : Format.t) (l : list Format.t) (k : Z * Z).

Lemma key_lt_irrefl k : key_lt k k = false.
Proof. unfold key_lt. by rewrite !Z.ltb_irrefl, andb_false_r. Qed.

Lemma key_lt_false (a b : Z * Z) : key_lt a b = false <-> key_le b a.
Proof.
  unfold key_lt, key_le.
  rewrite orb_false_iff, andb_false_iff, !Z.ltb_ge, Z.eqb_neq. lia.
Qed.

Lemma key_lt_true (a b : Z * Z) : key_lt a b = true -> key_le a b.
Proof.
  unfold key_lt, key_le.
  rewrite orb_true_iff, andb_true_iff, !Z.ltb_lt, Z.eqb_eq. lia.
Qed.

Lemma key_le_trans (a b c : Z * Z) : key_le a b -> key_le b c -> key_le a c.
Proof. unfold key_le. lia. Qed.

Lemma insert_desc_perm x l : insert_desc x l ≡ₚ x :: l.
Proof.
  induction l as [|y l IH]; simpl; [done|].
  destruct (key_lt _ _); [|done].
  rewrite IH. apply Permutation_swap.
Qed.

Lemma sort_reverse_perm l : sort_reverse l ≡ₚ l.
Proof.
  induction l as [|x l IH]; simpl; [done|].
  by rewrite insert_desc_perm, IH.
Qed.

Lemma insert_desc_sorted x l :
  StronglySorted (fun a b => key_le (sort_key b) (sort_key a)) l ->
  StronglySorted (fun a b => key_le (sort_key b) (sort_key a)) (insert_desc x l).
Proof.
  induction 1 as [|y l Hl IH Hy]; simpl.
  - repeat constructor.
  - destruct (key_lt (sort_key x) (sort_key y)) eqn:E.
    + constructor; [done|].
      rewrite insert_desc_perm. constructor; [|done].
      by apply key_lt_true.
    + apply key_lt_false in E.
      constructor; [by constructor|].
      constructor; [done|].
      eapply Forall_impl; [exact Hy|].
      intros b Hb. simpl in Hb. by eapply key_le_trans.
Qed.

Lemma sort_reverse_sorted l :
  StronglySorted (fun a b => key_le (sort_key b) (sort_key a)) (sort_reverse l).
Proof.
  induction l as [|x l IH]; simpl; [constructor|].
  by apply insert_desc_sorted.
Qed.

(** The insertion never moves an element across one of the same key. *)
Lemma insert_desc_stable k x l :
  filter (fun f => sort_key f = k) (insert_desc x l)
  = filter (fun f => sort_key f = k) (x :: l).
Proof.
  induction l as [|y l IH]; simpl; [done|].
  destruct (key_lt (sort_key x) (sort_key y)) eqn:E; [|done].
  rewrite filter_cons, IH, !filter_cons.
  destruct (decide (sort_key y = k)) as [Hy|], (decide (sort_key x = k)) as [Hx|];
    try done.
  rewrite Hx, Hy, key_lt_irrefl in E. discriminate E.
Qed.

Lemma sort_reverse_stable k l :
  filter (fun f => sort_key f = k) (sort_reverse l)
  = filter (fun f => sort_key f = k) l.
Proof.
  induction l as [|x l IH]; simpl; [done|].
  by rewrite insert_desc_stable, !filter_cons, IH.
Qed.

End Sort.

(** C5. The sort of the default rule orders the video-capable
    descriptors by descending (height, filesize), a missing value
    counting 0, and is stable: the descriptors of any one (height,
    filesize) pair come out in the order they have in the input. *)
Theorem sorted_video_formats_stable (formats : list Format.t) :
  let video_formats := filter (fun f => has_video f = true) formats in
  sorted_video_formats formats ≡ₚ video_formats
  /\ StronglySorted (fun a b => key_le (sort_key b) (sort_key a))
       (sorted_video_formats formats)
  /\ forall k : Z * Z,
       filter (fun f => sort_key f = k) (sorted_video_formats formats)
       = filter (fun f => sort_key f = k) video_formats.
Proof.
  unfold sorted_video_formats. split_and!.
  - apply sort_reverse_perm.
  - apply sort_reverse_sorted.
  - intros k. apply sort_reverse_stable.
Qed.

(** ** Format selection *)

Section Selection.

Implicit Types (fmt best : Format.t) (formats : list Format.t).

Lemma has_video_true fmt : has_video fmt = true <-> ~ no_video fmt.
Proof.
  unfold has_video, no_video. destruct (get (Format.vcodec fmt)) as [v|].
  - rewrite negb_true_iff, String.eqb_neq. split; congruence.
  - split; [discriminate | done].
Qed.

Lemma has_video_false fmt : has_video fmt = false <-> no_video fmt.
Proof.
  unfold has_video, no_video. destruct (get (Format.vcodec fmt)) as [v|].
  - rewrite negb_false_iff, String.eqb_eq. split; congruence.
  - split; discriminate.
Qed.

Lemma filter_video_nil formats :
  filter (fun f => has_video f = true) formats = [] <-> Forall no_video formats.
Proof.
  induction formats as [|x l IH]; [by split|].
  rewrite filter_cons, Forall_cons, <- IH, <- has_video_false.
  destruct (decide (has_video x = true)) as [H|H].
  - rewrite H. split; [done | by intros [? _]].
  - apply not_true_is_false in H. rewrite H. tauto.
Qed.

(** The default rule returns the head of the sorted video formats, or
    the first format when no format has video. *)
Lemma highest_quality_head formats :
  formats <> [] ->
  exists best, highest_quality formats = Ok best
    /\ head (sorted_video_formats formats ++ formats) = Some best.
Proof.
  intros Hne. unfold highest_quality, sorted_video_formats.
  destruct (filter _ formats) as [|v vs] eqn:Hf.
  - destruct formats as [|first rest]; [done|]. by exists first.
  - destruct (sort_reverse (v :: vs)) as [|best rest] eqn:Hs.
    + pose proof (sort_reverse_perm (v :: vs)) as Hp. rewrite Hs in Hp.
      by apply Permutation_nil_cons in Hp.
    + by exists best.
Qed.

Lemma highest_quality_video formats :
  formats <> [] ->
  exists best, highest_quality formats = Ok best
    /\ best ∈ formats
    /\ (~ Forall no_video formats -> ~ no_video best)
    /\ (Forall no_video formats -> head formats = Some best).
Proof.
  intros Hne. destruct (highest_quality_head formats Hne) as (best & Hq & Hh).
  exists best. split; [done|]. revert Hh. unfold sorted_video_formats.
  destruct (filter _ formats) as [|v vs] eqn:Hf.
  - simpl. intros Hh. apply filter_video_nil in Hf. split_and!.
    + by apply head_Some_elem_of.
    + done.
    + done.
  - assert (best ∈ sort_reverse (v :: vs) -> has_video best = true /\ best ∈ formats)
      as Hin.
    { rewrite sort_reverse_perm, <- Hf, list_elem_of_filter. tauto. }
    destruct (sort_reverse (v :: vs)) as [|b rest] eqn:Hs.
    + pose proof (sort_reverse_perm (v :: vs)) as Hp. rewrite Hs in Hp.
      by apply Permutation_nil_cons in Hp.
    + simpl. intros [= ->]. destruct Hin as [Hv Hb]; [left|].
      apply has_video_true in Hv. split_and!; [done | done |].
      intros Hall. rewrite Forall_forall in Hall. by destruct (Hv (Hall _ Hb)).
Qed.

Lemma tiktok_accepts_text fmt :
  note_is_text fmt ->
  tiktok_accepts fmt
  = Ok ((contains "download" (lower (note_text fmt))
         || negb (contains "watermark" (lower (note_text fmt))))
        && has_video fmt).
Proof.
  unfold note_is_text, note_text, tiktok_accepts. intros Hn.
  destruct (Format.format_note fmt) as [| |note]; [|done|]; simpl;
    try destruct (contains "download" _ || _); by destruct (has_video fmt).
Qed.

Lemma tiktok_accepts_true fmt :
  note_is_text fmt -> ~ no_video fmt -> note_passes fmt ->
  tiktok_accepts fmt = Ok true.
Proof.
  unfold note_passes. intros Hn Hv Hp. rewrite tiktok_accepts_text by done.
  apply has_video_true in Hv.
  rewrite <- contains_lower, <- not_contains_lower in Hp.
  rewrite Hv. by destruct Hp as [->| ->]; rewrite ?orb_true_r.
Qed.

Lemma tiktok_accepts_false fmt :
  note_is_text fmt -> no_video fmt \/ ~ note_passes fmt ->
  tiktok_accepts fmt = Ok false.
Proof.
  unfold note_passes. intros Hn Hv. rewrite tiktok_accepts_text by done.
  rewrite <- has_video_false in Hv.
  rewrite <- contains_lower, <- not_contains_lower in Hv.
  destruct (contains "download" _), (contains "watermark" _), (has_video fmt);
    simpl; intuition congruence.
Qed.

Lemma tiktok_accepts_inv fmt :
  tiktok_accepts fmt = Ok true -> ~ no_video fmt.
Proof.
  unfold tiktok_accepts. intros H. apply has_video_true.
  destruct (lower_of _) as [note|]; [|done]. simpl in H.
  destruct (_ || _), (has_video fmt); done.
Qed.

Lemma tiktok_accepts_total fmt :
  note_is_text fmt -> exists b, tiktok_accepts fmt = Ok b.
Proof.
  intros Hn. eexists. by apply tiktok_accepts_text.
Qed.

Lemma tiktok_scan_total formats :
  Forall note_is_text formats ->
  exists found, tiktok_scan formats = Ok found
    /\ forall fmt, found = Some fmt -> fmt ∈ formats /\ ~ no_video fmt.
Proof.
  induction 1 as [|x l Hx Hl IH]; simpl.
  - by exists None.
  - destruct (tiktok_accepts_total x Hx) as [[] Hb]; rewrite Hb; simpl.
    + exists (Some x). split; [done|]. intros fmt [= <-].
      split; [left | by apply tiktok_accepts_inv].
    + destruct IH as (found & -> & Hf). exists found. split; [done|].
      intros fmt Hs. destruct (Hf fmt Hs). split; [by right | done].
Qed.

Lemma tiktok_scan_first (pre post : list Format.t) fmt :
  Forall note_is_text (pre ++ fmt :: post) ->
  Forall (fun f => no_video f \/ ~ note_passes f) pre ->
  ~ no_video fmt -> note_passes fmt ->
  tiktok_scan (pre ++ fmt :: post) = Ok (Some fmt).
Proof.
  intros Hn Hpre Hv Hp. induction Hpre as [|x l Hx Hl IH]; simpl.
  - apply Forall_cons in Hn as [Hn _].
    by rewrite tiktok_accepts_true.
  - simpl in Hn. apply Forall_cons in Hn as [Hn Hn'].
    rewrite tiktok_accepts_false by done. simpl. by apply IH.
Qed.

Lemma tiktok_scan_none formats :
  Forall note_is_text formats ->
  Forall (fun f => no_video f \/ ~ note_passes f) formats ->
  tiktok_scan formats = Ok None.
Proof.
  intros Hn Hall. induction Hall as [|x l Hx Hl IH]; simpl; [done|].
  apply Forall_cons in Hn as [Hn Hn'].
  rewrite tiktok_accepts_false by done. simpl. by apply IH.
Qed.

(** On the other platforms the selector is the default rule. *)
Lemma select_best_format_default formats (platform : string) :
  formats <> [] -> platform <> "tiktok" ->
  _select_best_format formats platform = highest_quality formats.
Proof.
  intros Hne Hp. destruct formats; [done|]. simpl.
  apply String.eqb_neq in Hp. by rewrite Hp.
Qed.

End Selection.

(** A note bound to None stops the TikTok loop with an AttributeError. *)
Example select_best_format_none_note :
  let fmt := {| Format.format_id := Has "0"; Format.format_note := PyNone;
                Format.ext := Has "mp4"; Format.quality := Missing;
                Format.filesize := Missing; Format.height := Has 720;
                Format.resolution := Missing; Format.fps := Missing;
                Format.vcodec := Has "h264"; Format.acodec := Missing;
                Format.url := Has "https://cdn.example/v.mp4" |} in
  _select_best_format [fmt] "tiktok" = Raise AttributeError
  /\ _select_best_format [fmt] "youtube" = Ok fmt.
Proof. split; reflexivity. Qed.

(** On a non-empty list the selector returns a descriptor of the list,
    one with video when the list has one, the first one otherwise. *)
Lemma select_best_format_returns
    (formats : list Format.t) (platform : string) :
  formats <> [] ->
  notes_are_text formats platform ->
  exists best, _select_best_format formats platform = Ok best
    /\ best ∈ formats
    /\ (~ Forall no_video formats -> ~ no_video best)
    /\ (Forall no_video formats -> head formats = Some best).
Proof.
  intros Hne Hnotes.
  destruct (decide (platform = "tiktok")) as [->|Hp].
  - destruct (tiktok_scan_total formats (Hnotes eq_refl)) as (found & Hs & Hf).
    destruct formats as [|x l] eqn:E; [done|]. rewrite <- E in *.
    assert (_select_best_format formats "tiktok"
            = match found with Some fmt => Ok fmt | None => highest_quality formats end)
      as ->.
    { rewrite E at 1. unfold _select_best_format. simpl String.eqb. cbv iota.
      rewrite <- E, Hs. done. }
    destruct found as [fmt|].
    + destruct (Hf fmt eq_refl) as [Hin Hv]. exists fmt. split_and!; try done.
      intros Hall. rewrite Forall_forall in Hall. by destruct (Hv (Hall _ Hin)).
    + apply highest_quality_video. by rewrite E.
  - rewrite select_best_format_default by done.
    by apply highest_quality_video.
Qed.


(** The selector returns on every list whose notes are text. *)
Lemma select_best_format_total (formats : list Format.t) (platform : string) :
  notes_are_text formats platform ->
  exists best, _select_best_format formats platform = Ok best.
Proof.
  intros Hn. destruct formats as [|x l] eqn:E; [by exists Format.empty|].
  destruct (select_best_format_returns (x :: l) platform) as (best & Hb & _);
    [done | done |]. by exists best.
Qed.

(** C3. On a non-empty list the selector returns one of its descriptors;
    the descriptor does not carry the "no video" sentinel unless every
    descriptor of the list carries it, and then it is the first of the
    list.  (For tiktok the notes are strings or missing.) *)
Theorem select_best_format_has_video
    (formats : list Format.t) (platform : string) :
  formats <> [] ->
  notes_are_text formats platform ->
  exists best, _select_best_format formats platform = Ok best
    /\ best ∈ formats
    /\ (~ Forall no_video formats -> ~ no_video best)
    /\ (Forall no_video formats -> head formats = Some best).
Proof. apply select_best_format_returns. Qed.

Lemma select_best_format_has_video_witness :
  exists best, _select_best_format Sample.scenario "youtube" = Ok best
    /\ best ∈ Sample.scenario
    /\ (~ Forall no_video Sample.scenario -> ~ no_video best)
    /\ (Forall no_video Sample.scenario -> head Sample.scenario = Some best).
Proof.
  apply (select_best_format_has_video Sample.scenario "youtube").
  - discriminate.
  - discriminate.
Defined.

Example select_best_format_scenario :
  _select_best_format Sample.scenario "youtube"
  = Ok (Sample.video "1080" "hd" 1080 2000000).
Proof. reflexivity. Qed.

(** C8. For tiktok the selector returns the first descriptor, in the
    order of the list, that has video and whose note, its case ignored,
    contains "download" or does not contain "watermark" (a missing note
    is the empty note); when no descriptor is such, the selector is
    the default rule.  (The notes are strings or missing.) *)
Theorem select_best_format_tiktok (formats : list Format.t) :
  Forall note_is_text formats ->
  (forall (pre : list Format.t) (fmt : Format.t) (post : list Format.t),
     formats = (pre ++ fmt :: post)%list ->
     Forall (fun f => no_video f \/ ~ note_passes f) pre ->
     ~ no_video fmt -> note_passes fmt ->
     _select_best_format formats "tiktok" = Ok fmt)
  /\ (formats <> [] ->
      Forall (fun f => no_video f \/ ~ note_passes f) formats ->
      _select_best_format formats "tiktok" = highest_quality formats).
Proof.
  intros Hn. split.
  - intros pre fmt post -> Hpre Hv Hp.
    pose proof (tiktok_scan_first pre post fmt Hn Hpre Hv Hp) as Hs.
    unfold _select_best_format. simpl String.eqb. cbv iota.
    destruct (pre ++ fmt :: post)%list eqn:E; [by destruct pre|].
    by rewrite Hs.
  - intros Hne Hall. pose proof (tiktok_scan_none formats Hn Hall) as Hs.
    unfold _select_best_format. simpl String.eqb. cbv iota.
    destruct formats; [done|]. by rewrite Hs.
Qed.

Lemma select_best_format_tiktok_witness :
  _select_best_format [Sample.watermarked; Sample.direct] "tiktok"
  = Ok Sample.direct.
Proof.
  assert (Forall note_is_text [Sample.watermarked; Sample.direct]) as Hn.
  { repeat constructor; discriminate. }
  apply (proj1 (select_best_format_tiktok _ Hn) [Sample.watermarked]
           Sample.direct []).
  - reflexivity.
  - apply Forall_cons. split; [|apply Forall_nil_2]. right. unfold note_passes.
    rewrite <- contains_lower, <- not_contains_lower. vm_compute.
    intros [H|H]; discriminate H.
  - discriminate.
  - right. apply not_contains_lower. reflexivity.
Defined.

(** C8, as stated: the note ["Watermarked"] of the first descriptor
    does not contain ["watermark"] as it is written, and the descriptor
    has video, yet the selector passes over it. *)
Lemma select_best_format_tiktok_verbatim_counterexample :
  has_video Sample.watermarked = true
  /\ note_passes_verbatim Sample.watermarked = true
  /\ _select_best_format [Sample.watermarked; Sample.direct] "tiktok"
     = Ok Sample.direct
  /\ Sample.direct <> Sample.watermarked.
Proof. split_and!; [reflexivity | reflexivity | reflexivity | discriminate]. Qed.

(** ** The projection *)

Section Projection.

Implicit Types (info : Info.t) (platform : string) (best : Format.t).

Lemma parse_formats_filter (formats : list Format.t) :
  _parse_formats formats
  = summary <$> filter (fun f => has_video f = true) formats.
Proof.
  induction formats as [|x l IH]; [done|].
  cbn [_parse_formats]. rewrite filter_cons, IH.
  destruct (decide (has_video x = true)) as [H|H].
  - by rewrite H.
  - apply not_true_is_false in H. by rewrite H.
Qed.

Lemma duration_str_total (duration : option Z) :
  Z.abs (default 0 duration / 86400) <= 999999999 ->
  exists s, duration_str duration = Ok s.
Proof.
  intros Hr. unfold duration_str, datetime.of_seconds.
  destruct (truthy_int duration); [|by eexists].
  destruct (Z.gtb_spec (Z.abs (default 0 duration / 86400)) 999999999);
    [lia|]. by eexists.
Qed.

(** When the selector and the duration formatting return, the
    projection returns, with these fields. *)
Lemma parse_video_info_fields info platform best (s : option string) :
  _select_best_format (Info.formats info) platform = Ok best ->
  duration_str (get_default (Info.duration info) 0) = Ok s ->
  exists video, _parse_video_info info platform = Ok video
    /\ Video.duration_string video = s
    /\ Video.direct_url video
       = or_str (get (Format.url best)) (get (Info.url info))
    /\ Video.filesize_mb video
       = size_mb (or_int (get (Format.filesize best)) (get (Info.filesize info)))
    /\ Video.formats video = take 5 (_parse_formats (Info.formats info)).
Proof.
  intros Hb Hs. unfold _parse_video_info. rewrite Hb. cbn [bind].
  rewrite Hs. cbn [bind]. eexists. split; [reflexivity|].
  cbn [Video.duration_string Video.direct_url Video.filesize_mb Video.formats].
  split_and!; try done. by destruct (Info.formats info).
Qed.

Lemma parse_video_info_total info platform :
  notes_are_text (Info.formats info) platform ->
  duration_in_range info ->
  exists best video,
    _select_best_format (Info.formats info) platform = Ok best
    /\ _parse_video_info info platform = Ok video
    /\ Video.direct_url video
       = or_str (get (Format.url best)) (get (Info.url info))
    /\ Video.filesize_mb video
       = size_mb (or_int (get (Format.filesize best)) (get (Info.filesize info)))
    /\ Video.formats video = take 5 (_parse_formats (Info.formats info)).
Proof.
  intros Hn Hr. destruct (select_best_format_total _ _ Hn) as [best Hb].
  destruct (duration_str_total _ Hr) as [s Hs].
  destruct (parse_video_info_fields info platform best s Hb Hs)
    as (video & Hv & _ & H). by exists best, video.
Qed.

End Projection.




(** C9. The alternate formats of the projected record are summaries of
    descriptors that do not carry the "no video" sentinel, in the order
    of the input (the first five such descriptors), and are at most 5. *)
Theorem alternate_formats_first_five (info : Info.t) (platform : string) :
  notes_are_text (Info.formats info) platform ->
  duration_in_range info ->
  exists video, _parse_video_info info platform = Ok video
    /\ (length (Video.formats video) <= 5)%nat
    /\ Forall (fun p => Parsed.vcodec p <> Some "none") (Video.formats video)
    /\ Video.formats video
       = summary <$> take 5 (filter (fun f => get (Format.vcodec f) <> Some "none")
                               (Info.formats info))
    /\ Video.formats video `sublist_of` (summary <$> Info.formats info).
Proof.
  intros Hn Hr.
  destruct (parse_video_info_total info platform Hn Hr)
    as (best & video & _ & Hv & _ & _ & Hf).
  exists video. split; [done|].
  assert (filter (fun f => has_video f = true) (Info.formats info)
          = filter (fun f => get (Format.vcodec f) <> Some "none")
              (Info.formats info)) as Hfilter.
  { apply list_filter_iff. intros f. apply has_video_true. }
  rewrite Hf, parse_formats_filter, Hfilter, <- fmap_take. split_and!.
  - rewrite length_fmap, length_take. lia.
  - apply Forall_fmap, Forall_take, Forall_forall.
    intros f Hin. apply list_elem_of_filter in Hin as [Hin _]. exact Hin.
  - done.
  - apply fmap_sublist. etrans; [apply sublist_take | apply sublist_filter].
Qed.

Lemma alternate_formats_first_five_witness :
  exists video,
    _parse_video_info (Sample.record (Has 125) Missing Sample.scenario) "youtube"
    = Ok video
    /\ (length (Video.formats video) <= 5)%nat.
Proof.
  destruct (alternate_formats_first_five
              (Sample.record (Has 125) Missing Sample.scenario) "youtube")
    as (video & Hv & Hlen & _).
  - discriminate.
  - vm_compute. discriminate.
  - exists video. split; [exact Hv | exact Hlen].
Defined.

(** Twenty video formats give five alternates, the first five. *)
Example alternate_formats_twenty :
  let formats := (fun h => Sample.video "f" "sd" h 1000) <$> seqZ 1 20 in
  match _parse_video_info (Sample.record (Has 125) Missing formats) "youtube" with
  | Ok video => Video.formats video = summary <$> take 5 formats
  | Raise _ => False
  end.
Proof. vm_compute. reflexivity. Qed.

(** ** The size check *)

Section SizeCheck.

Lemma gt_int_lt (q : Q) (n : Z) :
  Num.gt_int q n = true <-> (inject_Z n < q)%Q.
Proof.
  unfold Num.gt_int. rewrite negb_true_iff, <- not_true_iff_false, Qle_bool_iff.
  split; [apply Qnot_le_lt | apply Qlt_not_le].
Qed.

Lemma truthy_above (q : Q) (n : Z) :
  0 <= n -> (inject_Z n < q)%Q -> Num.truthy q = true.
Proof.
  intros Hn Hq. unfold Num.truthy.
  rewrite negb_true_iff, <- not_true_iff_false, Qeq_bool_iff.
  intros Heq. rewrite Heq in Hq.
  assert (inject_Z 0 <= inject_Z n)%Q as H0 by by rewrite <- Zle_Qle.
  apply (Qlt_not_le _ _ Hq H0).
Qed.

Lemma check_file_size_cases (cfg : Settings) (video : Video.t) :
  0 <= MAX_DOWNLOAD_SIZE_MB cfg ->
  match Video.filesize_mb video with
  | Some mb =>
      ((inject_Z (MAX_DOWNLOAD_SIZE_MB cfg) < mb)%Q
       /\ check_file_size cfg video
          = Raise (FileTooLargeException (Num.int_of mb) (MAX_DOWNLOAD_SIZE_MB cfg)))
      \/ (~ (inject_Z (MAX_DOWNLOAD_SIZE_MB cfg) < mb)%Q
          /\ check_file_size cfg video = Ok tt)
  | None => check_file_size cfg video = Ok tt
  end.
Proof.
  intros Hmax. unfold check_file_size.
  destruct (Video.filesize_mb video) as [mb|]; [|done].
  destruct (Num.gt_int mb (MAX_DOWNLOAD_SIZE_MB cfg)) eqn:Hgt.
  - apply gt_int_lt in Hgt. left. split; [done|].
    by rewrite (truthy_above mb _ Hmax Hgt).
  - right. split.
    + rewrite <- gt_int_lt. congruence.
    + by rewrite andb_false_r.
Qed.

End SizeCheck.

(** The statements of lines 141-145 taken alone, before the handlers
    of [get_video_info]: for a non-negative limit they raise exactly
    when the size in MB is known and strictly above the limit, and then
    raise FileTooLargeException(int(size), limit); with the limit 500,
    501 MB raises FileTooLargeException(501, 500), exactly 500 MB and
    an unknown size raise nothing. *)
Theorem check_file_size_limit (cfg : Settings) (video : Video.t) :
  0 <= MAX_DOWNLOAD_SIZE_MB cfg ->
  (forall e,
     check_file_size cfg video = Raise e
     <-> exists mb, Video.filesize_mb video = Some mb
           /\ (inject_Z (MAX_DOWNLOAD_SIZE_MB cfg) < mb)%Q
           /\ e = FileTooLargeException (Num.int_of mb) (MAX_DOWNLOAD_SIZE_MB cfg))
  /\ (MAX_DOWNLOAD_SIZE_MB cfg = 500 -> Video.filesize_mb video = Some 501%Q ->
      check_file_size cfg video = Raise (FileTooLargeException 501 500))
  /\ (MAX_DOWNLOAD_SIZE_MB cfg = 500 -> Video.filesize_mb video = Some 500%Q ->
      check_file_size cfg video = Ok tt)
  /\ (Video.filesize_mb video = None -> check_file_size cfg video = Ok tt).
Proof.
  intros Hmax. pose proof (check_file_size_cases cfg video Hmax) as Hc.
  split_and!.
  - intros e. destruct (Video.filesize_mb video) as [mb|].
    + destruct Hc as [[Hlt ->]|[Hle ->]].
      * split; [intros [= <-]; by exists mb|].
        by intros (mb' & [= <-] & _ & ->).
      * split; [done|]. by intros (mb' & [= <-] & Hlt & _).
    + rewrite Hc. split; [done | by intros (mb & ? & _)].
  - intros H500 Hmb. rewrite Hmb, H500 in Hc.
    destruct Hc as [[_ Hc]|[Hc _]].
    + by rewrite Hc.
    + by destruct Hc.
  - intros H500 Hmb. rewrite Hmb, H500 in Hc.
    destruct Hc as [[Hc _]|[_ Hc]]; [|done].
    by vm_compute in Hc.
  - intros Hmb. by rewrite Hmb in Hc.
Qed.

Lemma check_file_size_limit_witness :
  check_file_size settings (Sample.projected (Some 501%Q))
  = Raise (FileTooLargeException 501 500)
  /\ check_file_size settings (Sample.projected (Some 500%Q)) = Ok tt
  /\ check_file_size settings (Sample.projected None) = Ok tt.
Proof.
  assert (0 <= MAX_DOWNLOAD_SIZE_MB settings) as Hmax by (vm_compute; discriminate).
  split_and!.
  - apply (proj1 (proj2 (check_file_size_limit settings
                           (Sample.projected (Some 501%Q)) Hmax)));
      reflexivity.
  - apply (proj1 (proj2 (proj2 (check_file_size_limit settings
                           (Sample.projected (Some 500%Q)) Hmax))));
      reflexivity.
  - apply (proj2 (proj2 (proj2 (check_file_size_limit settings
                           (Sample.projected None) Hmax))));
      reflexivity.
Defined.

(** The size is truncated in the exception: 500.01 MB is rejected as
    FileTooLargeException(500, 500). *)
Example check_file_size_truncates :
  check_file_size settings (Sample.projected (Some (50001 # 100)))
  = Raise (FileTooLargeException 500 500).
Proof. reflexivity. Qed.

(** What [get_video_info] lets out: the last handler turns every
    exception of the [try] block, the FileTooLargeException of the size
    check and the InvalidURLException of the detection included, into a
    DownloadFailedException. *)
Lemma get_video_info_raises
    (cfg : Settings) (url : string) (outcome : extraction) (e : exn) :
  get_video_info cfg url outcome = Raise e ->
  e = VideoUnavailableException \/ e = DownloadFailedException
  \/ e = TimeoutException.
Proof.
  unfold get_video_info. destruct (try_block cfg url outcome) as [r|video]; [|done].
  intros [= <-]. destruct r as [msg| |e']; simpl; [|auto..].
  destruct (_ || _); [auto|]. destruct (contains "copyright" _); auto.
Qed.

Example get_video_info_too_large :
  let info := Sample.record (Has 125) (Has 1048576000) [Sample.zero_size] in
  get_video_info settings "https://youtu.be/abc" (Extracted (Some info))
  = Raise DownloadFailedException.
Proof. reflexivity. Qed.

(** C6. A record of 501 MB under the limit of 500 MB: the size check
    raises FileTooLargeException(501, 500), but it does so inside the
    [try] block of [get_video_info], whose last handler catches it and
    raises a DownloadFailedException in its place.  The caller gets
    that exception, and the route answers 500, not 413. *)
Theorem file_too_large_is_not_reported :
  exists video,
    detect_platform Case.url = Ok "youtube"
    /\ _parse_video_info Case.too_large "youtube" = Ok video
    /\ Video.filesize_mb video = Some 501%Q
    /\ check_file_size settings video = Raise (FileTooLargeException 501 500)
    /\ get_video_info settings Case.url (Extracted (Some Case.too_large))
       = Raise DownloadFailedException
    /\ forall other_fields_valid,
         fetch_video_info other_fields_valid settings
           (fun _ => Extracted (Some Case.too_large)) (Some Case.url) None
         = HTTPException 500.
Proof. eexists. split_and!; try reflexivity. Qed.

(** ** The size in MB *)

Section Rounding.

Lemma round_half_even_near (n : Z) (d : positive) :
  Z.abs (2 * n - 2 * Num.round_half_even (n # d) * Zpos d) <= Zpos d.
Proof.
  unfold Num.round_half_even. cbn [Qnum Qden].
  pose proof (Z.div_mod n (Zpos d) ltac:(lia)) as Hdm.
  pose proof (Z.mod_pos_bound n (Zpos d) ltac:(lia)) as Hb.
  destruct (Z.compare_spec (2 * (n mod Zpos d)) (Zpos d)) as [He|Hl|Hg].
  - destruct (Z.even (n / Zpos d)); nia.
  - nia.
  - nia.
Qed.

Lemma round2_near (x : Q) : (Qabs (Num.round2 x - x) <= 1 # 200)%Q.
Proof.
  unfold Num.round2. rewrite Qred_correct.
  destruct x as [n d].
  pose proof (round_half_even_near (n * 100) (d * 1)) as H.
  change ((n # d) * 100)%Q with (n * 100 # d * 1) .
  set (k := Num.round_half_even (n * 100 # d * 1)) in *.
  apply Qabs_Qle_condition. unfold Qle, Qminus, Qplus, Qopp. cbn [Qnum Qden].
  rewrite ?Pos2Z.inj_mul in *. split; lia.
Qed.

Lemma round2_hundredths (x : Q) : exists k : Z, (Num.round2 x == k # 100)%Q.
Proof. eexists. unfold Num.round2. apply Qred_correct. Qed.

Lemma size_mb_known (n : Z) :
  n <> 0 -> size_mb (Some n) = Some (Num.round2 (Num.div_mb n)).
Proof.
  intros Hn. unfold size_mb. cbn [truthy_int].
  apply Z.eqb_neq in Hn. by rewrite Hn.
Qed.

Lemma known_size_or (best : Format.t) (info : Info.t) (n : Z) :
  known_size best info n ->
  or_int (get (Format.filesize best)) (get (Info.filesize info)) = Some n.
Proof.
  intros [Hn [Hb|[[Hb|Hb] Hi]]]; unfold or_int; rewrite Hb; cbn [truthy_int].
  - apply Z.eqb_neq in Hn. by rewrite Hn.
  - done.
  - done.
Qed.

End Rounding.

(** ** The duration string *)

Section DurationString.

#[local] Arguments String.append : simpl nomatch.

Lemma append_assoc (a b c : string) : (a +:+ b) +:+ c = a +:+ (b +:+ c).
Proof. induction a as [|x a IH]; simpl; [done | by f_equal]. Qed.

Lemma append_empty_r (a : string) : a +:+ "" = a.
Proof. induction a as [|x a IH]; simpl; [done | by f_equal]. Qed.

Lemma dot_free_app (a b : string) :
  dot_free a -> dot_free b -> dot_free (a +:+ b).
Proof. intros Ha Hb c. by rewrite !append_assoc, Ha, Hb. Qed.

Lemma dot_free_fixed (a : string) : dot_free a -> split_dot_head a = a.
Proof. intros Ha. rewrite <- (append_empty_r a) at 1. rewrite Ha. simpl. apply append_empty_r. Qed.

Lemma dot_free_uint (u : Decimal.uint) : dot_free (NilEmpty.string_of_uint u).
Proof. induction u; intros b; simpl; by rewrite ?IHu. Qed.

Lemma dot_free_str_int (n : Z) : dot_free (str_int n).
Proof.
  unfold str_int, NilZero.string_of_int, NilZero.string_of_uint.
  destruct (Z.to_int n) as [u|u].
  - destruct u; try apply dot_free_uint. by intros b.
  - intros b. simpl. f_equal.
    destruct u; try apply dot_free_uint. by simpl.
Qed.

Lemma dot_free_zeros (n : nat) : dot_free (zeros n).
Proof. induction n as [|n IH]; intros b; simpl; [done | by rewrite IH]. Qed.

Lemma dot_free_str_int_pad (w : nat) (n : Z) : dot_free (str_int_pad w n).
Proof.
  unfold str_int_pad. destruct (n <? 0).
  - apply (dot_free_app "-"); [by intros b|].
    apply dot_free_app; [apply dot_free_zeros | apply dot_free_str_int].
  - apply dot_free_app; [apply dot_free_zeros | apply dot_free_str_int].
Qed.

Lemma str_int_pad_two_digits (m : Z) :
  0 <= m < 100 -> str_int_pad 2 m = two_digits m.
Proof.
  intros Hm. rewrite <- (Z2Nat.id m) by lia.
  assert (Z.to_nat m < 100)%nat as Hk by lia. revert Hk.
  generalize (Z.to_nat m). intros k Hk.
  do 100 (destruct k as [|k]; [reflexivity|]). lia.
Qed.

(** [str] of a normalised whole number of seconds has no sub-second part. *)
Lemma timedelta_str_whole (d s : Z) :
  0 <= d -> 0 <= s < 86400 ->
  split_dot_head (datetime.str {| datetime.days := d; datetime.seconds := s;
                                  datetime.microseconds := 0 |})
  = (if d =? 0 then "" else day_prefix d) +:+ hms s.
Proof.
  intros Hd Hs. unfold datetime.str, hms, day_prefix.
  cbn [datetime.days datetime.seconds datetime.microseconds].
  rewrite Z.eqb_refl, Z.abs_eq by done.
  rewrite Z.div_div by lia. change (60 * 60) with 3600.
  rewrite !str_int_pad_two_digits
    by (split; [apply Z.mod_pos_bound | pose proof (Z.mod_pos_bound (s / 60) 60);
                                         pose proof (Z.mod_pos_bound s 60)]; lia).
  assert (dot_free (str_int (s / 3600) +:+ ":" +:+ two_digits (s / 60 mod 60)
                    +:+ ":" +:+ two_digits (s mod 60))) as Hhms.
  { rewrite <- !str_int_pad_two_digits
      by (pose proof (Z.mod_pos_bound (s / 60) 60);
          pose proof (Z.mod_pos_bound s 60); lia).
    repeat (apply dot_free_app || apply dot_free_str_int
            || apply dot_free_str_int_pad || (by intros b)). }
  destruct (d =? 0).
  - by apply dot_free_fixed.
  - rewrite !append_assoc. apply dot_free_fixed.
    repeat (exact Hhms || apply dot_free_app || apply dot_free_str_int
            || (by intros b)).
    destruct (d =? 1); by intros b.
Qed.

Lemma duration_str_positive (d : Z) :
  0 < d -> d / 86400 <= 999999999 ->
  duration_str (Some d)
  = Ok (Some ((if d / 86400 =? 0 then "" else day_prefix (d / 86400))
              +:+ hms (d mod 86400))).
Proof.
  intros Hd Hr. unfold duration_str, datetime.of_seconds.
  assert (0 <= d / 86400) as Hq by (apply Z.div_pos; lia).
  change (default 0 (Some d)) with d.
  cbn [truthy_int]. destruct (Z.eqb_spec d 0) as [|_]; [lia|].
  cbn [negb].
  destruct (Z.gtb_spec (Z.abs (d / 86400)) 999999999); [lia|].
  cbn [bind]. rewrite timedelta_str_whole; [done | done |].
  apply Z.mod_pos_bound. lia.
Qed.

End DurationString.

(** The duration string of a whole number of seconds is that of a
    timedelta: for a positive duration below one day it is H:MM:SS with
    the hours always written, so that 125 seconds give "0:02:05"; for a
    day or more the day count comes first; a missing, None or zero
    duration gives no string. *)
Theorem duration_string_rendering (info : Info.t) (platform : string) :
  notes_are_text (Info.formats info) platform ->
  (forall d, Info.duration info = Has d -> 0 < d < 86400 ->
     exists video, _parse_video_info info platform = Ok video
       /\ Video.duration_string video = Some (hms d))
  /\ (forall d, Info.duration info = Has d ->
        86400 <= d -> d / 86400 <= 999999999 ->
        exists video, _parse_video_info info platform = Ok video
          /\ Video.duration_string video
             = Some (day_prefix (d / 86400) +:+ hms (d mod 86400)))
  /\ (Info.duration info = Has 125 ->
      exists video, _parse_video_info info platform = Ok video
        /\ Video.duration_string video = Some "0:02:05")
  /\ (Info.duration info = Missing \/ Info.duration info = PyNone
      \/ Info.duration info = Has 0 ->
      exists video, _parse_video_info info platform = Ok video
        /\ Video.duration_string video = None).
Proof.
  intros Hn. destruct (select_best_format_total _ _ Hn) as [best Hb].
  assert (forall s, duration_str (get_default (Info.duration info) 0) = Ok s ->
            exists video, _parse_video_info info platform = Ok video
              /\ Video.duration_string video = s) as Hfields.
  { intros s Hs.
    destruct (parse_video_info_fields info platform best s Hb Hs)
      as (video & Hv & Hd & _). by exists video. }
  split_and!.
  - intros d Hd Hr. apply Hfields. rewrite Hd. cbn [get_default].
    rewrite duration_str_positive.
    + by rewrite Z.div_small, Z.mod_small by lia.
    + lia.
    + rewrite Z.div_small by lia. lia.
  - intros d Hd Hge Hr. apply Hfields. rewrite Hd. cbn [get_default].
    rewrite duration_str_positive by lia.
    assert (1 <= d / 86400) as Hq by (apply Z.div_le_lower_bound; lia).
    destruct (Z.eqb_spec (d / 86400) 0); [lia | done].
  - intros Hd. apply Hfields. by rewrite Hd.
  - intros Hd. apply Hfields. by destruct Hd as [->|[->| ->]].
Qed.

Lemma duration_string_rendering_witness :
  exists video,
    _parse_video_info (Sample.record (Has 125) Missing Sample.scenario) "youtube"
    = Ok video
    /\ Video.duration_string video = Some "0:02:05".
Proof.
  assert (notes_are_text
            (Info.formats (Sample.record (Has 125) Missing Sample.scenario))
            "youtube") as Hn by discriminate.
  apply (proj1 (proj2 (proj2 (duration_string_rendering
           (Sample.record (Has 125) Missing Sample.scenario) "youtube" Hn)))).
  reflexivity.
Defined.

(** 125 seconds are rendered "0:02:05", not "2:05". *)
Lemma duration_string_rendering_counterexample :
  exists video,
    _parse_video_info (Sample.record (Has 125) Missing Sample.scenario) "youtube"
    = Ok video
    /\ Video.duration_string video = Some "0:02:05"
    /\ Video.duration_string video <> Some "2:05".
Proof. eexists. split_and!; [reflexivity | reflexivity | discriminate]. Qed.

Example duration_string_two_days :
  duration_str (Some 180125) = Ok (Some "2 days, 2:02:05").
Proof. reflexivity. Qed.

(** C2. The projection writes the hours of a duration even when they
    are zero: a record of 125 seconds gets the duration string
    "0:02:05", not "2:05", and one of 45 seconds gets "0:00:45", not
    the "00:45" the response schema gives as its example. *)
Theorem duration_string_hours_written :
  (exists video,
     _parse_video_info (Sample.record (Has 125) Missing Sample.scenario)
       "youtube" = Ok video
     /\ Video.duration video = Some 125
     /\ Video.duration_string video = Some "0:02:05")
  /\ (exists video,
        _parse_video_info (Sample.record (Has 45) Missing Sample.scenario)
          "tiktok" = Ok video
        /\ Video.duration video = Some 45
        /\ Video.duration_string video = Some "0:00:45").
Proof. split; eexists; split_and!; reflexivity. Qed.

(** C7. The size in MB of the projected record is the known byte size
    (of the chosen format, or else of the record) divided by 1024*1024
    and rounded to the nearest hundredth; 5,242,880 bytes give exactly
    5.0, and an unknown size gives None.  (The sizes of the record are
    below 2^53 bytes, where the division is exact in binary64.) *)
Theorem filesize_mb_rounded (info : Info.t) (platform : string) :
  notes_are_text (Info.formats info) platform ->
  duration_in_range info ->
  sizes_exact info = true ->
  exists best video,
    _select_best_format (Info.formats info) platform = Ok best
    /\ _parse_video_info info platform = Ok video
    /\ (forall n, known_size best info n ->
          exists q, Video.filesize_mb video = Some q
            /\ (exists k : Z, q == k # 100)%Q
            /\ (Qabs (q - inject_Z n / inject_Z (1024 * 1024)) <= 1 # 200)%Q)
    /\ (known_size best info 5242880 -> Video.filesize_mb video = Some 5%Q)
    /\ (get (Format.filesize best) = None -> get (Info.filesize info) = None ->
        Video.filesize_mb video = None).
Proof.
  intros Hn Hr _.
  destruct (parse_video_info_total info platform Hn Hr)
    as (best & video & Hb & Hv & _ & Hmb & _).
  exists best, video. split_and!; [done | done | | |]; rewrite Hmb.
  - intros n Hk. rewrite (known_size_or best info n Hk).
    rewrite size_mb_known by apply Hk.
    eexists. split; [reflexivity|]. split.
    + apply round2_hundredths.
    + apply round2_near.
  - intros Hk. by rewrite (known_size_or best info _ Hk).
  - by intros -> ->.
Qed.

Lemma filesize_mb_rounded_witness :
  exists video,
    _parse_video_info
      (Sample.record (Has 125) Missing [Sample.video "hd" "hd" 1080 5242880])
      "youtube"
    = Ok video
    /\ Video.filesize_mb video = Some 5%Q.
Proof.
  destruct (filesize_mb_rounded
              (Sample.record (Has 125) Missing
                 [Sample.video "hd" "hd" 1080 5242880])
              "youtube")
    as (best & video & Hb & Hv & _ & H5 & _).
  - discriminate.
  - vm_compute. discriminate.
  - reflexivity.
  - exists video. split; [exact Hv|]. apply H5.
    vm_compute in Hb. injection Hb as <-.
    split; [discriminate | left; reflexivity].
Defined.

(** A tie goes to the even hundredth: 0.125 MB is rounded to 0.12. *)
Example size_mb_tie_even : size_mb (Some 131072) = Some (3 # 25).
Proof. reflexivity. Qed.

(** C10 (amended). A chosen format of size 0 is treated as one of
    unknown size: when the record has no top-level size either (missing,
    None or 0), the projected size in MB is None and the size check
    does not reject. *)
Theorem zero_size_is_unknown (info : Info.t) (platform : string) :
  notes_are_text (Info.formats info) platform ->
  duration_in_range info ->
  exists best video,
    _select_best_format (Info.formats info) platform = Ok best
    /\ _parse_video_info info platform = Ok video
    /\ (get (Format.filesize best) = Some 0 ->
        get (Info.filesize info) = None \/ get (Info.filesize info) = Some 0 ->
        Video.filesize_mb video = None
        /\ forall cfg, check_file_size cfg video = Ok tt).
Proof.
  intros Hn Hr.
  destruct (parse_video_info_total info platform Hn Hr)
    as (best & video & Hb & Hv & _ & Hmb & _).
  exists best, video. split_and!; [done | done |]. intros H0 Hi.
  assert (Video.filesize_mb video = None) as Hnone.
  { rewrite Hmb, H0. by destruct Hi as [-> | ->]. }
  split; [done|]. intros cfg. unfold check_file_size. by rewrite Hnone.
Qed.

Lemma zero_size_is_unknown_witness :
  exists video,
    _parse_video_info (Sample.record (Has 125) Missing [Sample.zero_size])
      "youtube"
    = Ok video
    /\ Video.filesize_mb video = None
    /\ forall cfg, check_file_size cfg video = Ok tt.
Proof.
  destruct (zero_size_is_unknown
              (Sample.record (Has 125) Missing [Sample.zero_size]) "youtube")
    as (best & video & Hb & Hv & H0).
  - discriminate.
  - vm_compute. discriminate.
  - exists video. split; [exact Hv|].
    vm_compute in Hb. injection Hb as <-.
    apply H0; [reflexivity | left; reflexivity].
Defined.

(** C10, as stated: the chosen format reports size 0, the record has a
    top-level size of 1000 MB, and the projection reports 1000.0 MB,
    which the size check rejects. *)
Lemma zero_size_is_unknown_counterexample :
  let info := Sample.record (Has 125) (Has 1048576000) [Sample.zero_size] in
  _select_best_format (Info.formats info) "youtube" = Ok Sample.zero_size
  /\ get (Format.filesize Sample.zero_size) = Some 0
  /\ exists video, _parse_video_info info "youtube" = Ok video
       /\ Video.filesize_mb video = Some 1000%Q
       /\ check_file_size settings video
          = Raise (FileTooLargeException 1000 500).
Proof.
  split_and!; [reflexivity | reflexivity |].
  eexists. split_and!; reflexivity.
Qed.

(** * Further properties *)


(** ** [strip], [split] and [join] *)

Section StripFacts.

#[local] Arguments String.append : simpl nomatch.

Import PyStr.

Lemma lstrip_decompose (s : string) :
  exists pre, s = pre +:+ lstrip s
    /\ Forall (fun c => is_space c = true) (list_ascii_of_string pre).
Proof.
  induction s as [|c s IH].
  - exists EmptyString. by split.
  - simpl. destruct (is_space c) eqn:Hc.
    + destruct IH as (pre & Hs & Hpre). exists (String c pre). split.
      * simpl. by rewrite <- Hs.
      * simpl. by constructor.
    + exists EmptyString. by split.
Qed.

Lemma rstrip_decompose (s : string) :
  exists post, s = rstrip s +:+ post
    /\ Forall (fun c => is_space c = true) (list_ascii_of_string post).
Proof.
  induction s as [|c s IH].
  - exists EmptyString. by split.
  - destruct IH as (post & Hs & Hpost). cbn [rstrip].
    destruct (rstrip s) as [|d r] eqn:Hr.
    + destruct (is_space c) eqn:Hc.
      * exists (String c post). split; [by rewrite Hs at 1 | by constructor].
      * exists post. split; [by rewrite Hs at 1 | done].
    + exists post. split; [|done]. simpl. by rewrite Hs at 1.
Qed.

Lemma lstrip_head (s : string) (c : ascii) (t : string) :
  lstrip s = String c t -> is_space c = false.
Proof.
  induction s as [|d s IH]; [done|]. simpl.
  destruct (is_space d) eqn:Hd; [done|]. by intros [= <- _].
Qed.

Lemma rstrip_last (s t : string) (c : ascii) :
  rstrip s = t +:+ String c EmptyString -> is_space c = false.
Proof.
  revert t. induction s as [|d s IH]; intros t.
  - by destruct t.
  - cbn [rstrip]. destruct (rstrip s) as [|e r] eqn:Hr.
    + destruct (is_space d) eqn:Hd; [by destruct t|].
      destruct t as [|x t]; simpl; [by intros [= <-]|].
      intros [= _ H]. by destruct t.
    + destruct t as [|x t]; simpl; [done|].
      intros [= _ H]. by apply (IH t).
Qed.

Lemma rstrip_head (s : string) (c : ascii) (t : string) :
  (forall d u, s = String d u -> is_space d = false) ->
  rstrip s = String c t -> is_space c = false.
Proof.
  destruct s as [|d s]; [done|]. intros Hd. cbn [rstrip].
  destruct (rstrip s); [destruct (is_space d) eqn:E|];
    intros [= <- _]; try done; by apply (Hd d s).
Qed.

Lemma rstrip_fixed (s : string) :
  (forall t c, s = t +:+ String c EmptyString -> is_space c = false) ->
  rstrip s = s.
Proof.
  induction s as [|d s IH]; [done|]. intros Hlast. cbn [rstrip].
  destruct s as [|e s].
  - simpl. by rewrite (Hlast EmptyString d).
  - rewrite IH.
    + done.
    + intros t c Ht. apply (Hlast (String d t) c). simpl. by rewrite Ht.
Qed.

Lemma lstrip_fixed (s : string) :
  (forall c t, s = String c t -> is_space c = false) -> lstrip s = s.
Proof.
  destruct s as [|c s]; [done|]. intros H. simpl. by rewrite (H c s).
Qed.

Lemma split_nonempty (sep : ascii) (s : string) : split sep s <> [].
Proof.
  destruct s as [|c s]; [done|]. simpl.
  destruct (Ascii.eqb c sep); [done|]. by destruct (split sep s).
Qed.

Lemma join_cons_char (sep c : ascii) (x : string) (rest : list string) :
  join sep (String c x :: rest) = String c (join sep (x :: rest)).
Proof. by destruct rest. Qed.

Lemma split_separators (sep : ascii) (s : string) :
  length (split sep s)
  = S (length (filter (fun c => c = sep) (list_ascii_of_string s))).
Proof.
  induction s as [|c s IH]; [done|]. simpl. rewrite filter_cons.
  destruct (Ascii.eqb_spec c sep) as [->|Hne].
  - rewrite decide_True by done. simpl. by rewrite IH.
  - rewrite decide_False by done. rewrite <- IH.
    pose proof (split_nonempty sep s). by destruct (split sep s).
Qed.

Lemma split_pieces (sep : ascii) (s : string) :
  Forall (fun x => sep ∉ list_ascii_of_string x) (split sep s).
Proof.
  induction s as [|c s IH]; simpl.
  - repeat constructor. simpl. apply not_elem_of_nil.
  - destruct (Ascii.eqb_spec c sep) as [->|Hne].
    + constructor; [apply not_elem_of_nil | done].
    + destruct (split sep s) as [|x rest].
      * repeat constructor. simpl. rewrite elem_of_cons.
        intros [?|H]; [done | by apply not_elem_of_nil in H].
      * apply Forall_cons in IH as [Hx Hrest]. constructor; [|done].
        simpl. rewrite elem_of_cons. intros [?|?]; done.
Qed.

Lemma list_ascii_app (a b : string) :
  list_ascii_of_string (a +:+ b)
  = (list_ascii_of_string a ++ list_ascii_of_string b)%list.
Proof. induction a as [|c a IH]; simpl; [done | by rewrite IH]. Qed.

End StripFacts.

Lemma strip_parts (s : string) :
  exists pre post,
    s = pre +:+ PyStr.strip s +:+ post
    /\ Forall (fun c => PyStr.is_space c = true) (list_ascii_of_string pre)
    /\ Forall (fun c => PyStr.is_space c = true) (list_ascii_of_string post).
Proof.
  unfold PyStr.strip.
  destruct (lstrip_decompose s) as (pre & Hs & Hpre).
  destruct (rstrip_decompose (PyStr.lstrip s)) as (post & Hl & Hpost).
  exists pre, post. split_and!; [|done|done]. by rewrite <- Hl.
Qed.

Lemma strip_ends (s : string) :
  (forall c t, PyStr.strip s = String c t -> PyStr.is_space c = false)
  /\ (forall t c, PyStr.strip s = t +:+ String c EmptyString ->
        PyStr.is_space c = false).
Proof.
  unfold PyStr.strip. split.
  - intros c t. apply rstrip_head. intros d u. apply lstrip_head.
  - intros t c. apply rstrip_last.
Qed.

Lemma strip_idem (s : string) : PyStr.strip (PyStr.strip s) = PyStr.strip s.
Proof.
  destruct (strip_ends s) as [Hhead Hlast]. unfold PyStr.strip in *.
  rewrite (lstrip_fixed _ Hhead). by apply rstrip_fixed.
Qed.

(** [strip] removes exactly the white space around a string: the
    string is white space, then its strip, then white space; the strip
    neither starts nor ends with white space; stripping twice changes
    nothing more. *)
Lemma strip_spec (s : string) :
  (exists pre post,
     s = pre +:+ PyStr.strip s +:+ post
     /\ Forall (fun c => PyStr.is_space c = true) (list_ascii_of_string pre)
     /\ Forall (fun c => PyStr.is_space c = true) (list_ascii_of_string post))
  /\ (forall c t, PyStr.strip s = String c t -> PyStr.is_space c = false)
  /\ (forall t c, PyStr.strip s = t +:+ String c EmptyString ->
        PyStr.is_space c = false)
  /\ PyStr.strip (PyStr.strip s) = PyStr.strip s.
Proof.
  destruct (strip_ends s) as [Hhead Hlast].
  split_and!; [apply strip_parts | done | done | apply strip_idem].
Qed.

(** Splitting at a separator and joining with it gives the string
    back; there is one piece more than there are separators, and no
    piece contains the separator. *)
Lemma join_split (sep : ascii) (s : string) :
  PyStr.join sep (PyStr.split sep s) = s
  /\ length (PyStr.split sep s)
     = S (length (filter (fun c => c = sep) (list_ascii_of_string s)))
  /\ Forall (fun x => sep ∉ list_ascii_of_string x) (PyStr.split sep s).
Proof.
  split_and!; [|apply split_separators|apply split_pieces].
  induction s as [|c s IH]; [done|]. simpl.
  destruct (Ascii.eqb_spec c sep) as [->|Hne].
  - pose proof (split_nonempty sep s).
    destruct (PyStr.split sep s) as [|x rest] eqn:E; [done|].
    cbn [PyStr.join]. cbn [PyStr.join] in IH. by rewrite IH.
  - pose proof (split_nonempty sep s).
    destruct (PyStr.split sep s) as [|x rest] eqn:E; [done|].
    by rewrite join_cons_char, IH.
Qed.

(** X1. [cors_origins] gives one origin for each comma-separated piece
    of ALLOWED_ORIGINS, with the white space around it removed and no
    comma in it; the default setting gives the two local origins. *)
Theorem cors_origins_pieces (allowed_origins : string) :
  length (cors_origins allowed_origins)
  = S (length (filter (fun c => c = ","%char)
                 (list_ascii_of_string allowed_origins)))
  /\ Forall (fun origin => PyStr.strip origin = origin
                           /\ ","%char ∉ list_ascii_of_string origin)
       (cors_origins allowed_origins)
  /\ cors_origins ALLOWED_ORIGINS
     = ["http://localhost:3000"; "http://127.0.0.1:3000"].
Proof.
  unfold cors_origins. split_and!; [| |reflexivity].
  - rewrite length_fmap. apply split_separators.
  - apply Forall_fmap. eapply Forall_impl; [apply split_pieces|].
    intros x Hx. simpl. split; [apply strip_idem|].
    destruct (strip_parts x) as (pre & post & Hs & _).
    intros Hin. apply Hx. rewrite Hs, !list_ascii_app, !elem_of_app. auto.
Qed.


(** ** The validator of the request *)

Section Validator.

Lemma contains_vm_tiktok (s : string) :
  contains "vm.tiktok.com" s = true -> contains "tiktok.com" s = true.
Proof.
  rewrite !contains_app. intros (pre & post & ->).
  exists (pre +:+ "vm."), post. by rewrite append_assoc.
Qed.

(** The validator's list and the detector's patterns accept the same
    lower-cased strings. *)
Lemma supported_first_platform (u : string) :
  existsb (fun platform => contains platform u) supported = true
  <-> exists p, first_platform u PLATFORM_PATTERNS = Some p.
Proof.
  unfold supported, PLATFORM_PATTERNS, first_platform, re_search, existsb.
  pose proof (contains_vm_tiktok u) as Hvm.
  destruct (contains "instagram.com" u), (contains "instagr.am" u),
    (contains "tiktok.com" u), (contains "vm.tiktok.com" u),
    (contains "youtube.com" u), (contains "youtu.be" u); simpl;
    try (split; [eauto | done]);
    try (by specialize (Hvm eq_refl));
    split; try done; by intros [? ?].
Qed.

Lemma detect_platform_ok (url : string) :
  (exists p, detect_platform url = Ok p)
  <-> exists p, first_platform (lower url) PLATFORM_PATTERNS = Some p.
Proof.
  unfold detect_platform.
  destruct (first_platform (lower url) PLATFORM_PATTERNS) as [p|].
  - split; intros _; by exists p.
  - split; by intros [p ?].
Qed.

End Validator.

(** X2. On an ASCII URL the validator of the request and the platform
    detection agree: the validator accepts the URL exactly when the
    detection classifies the stripped URL, which is what the validator
    returns; it rejects a blank URL as empty, and any other URL the
    detection would refuse as unsupported. *)
Theorem validate_url_detect_platform (v : string) :
  is_ascii v = true ->
  (forall u, validate_url v = inr u
     <-> u = PyStr.strip v /\ exists p, detect_platform (PyStr.strip v) = Ok p)
  /\ (validate_url v = inl EmptyURL <-> PyStr.strip v = "")
  /\ (validate_url v = inl UnsupportedURL
      <-> PyStr.strip v <> ""
          /\ detect_platform (PyStr.strip v)
             = Raise (InvalidURLException (PyStr.strip v))).
Proof.
  intros _. unfold validate_url.
  pose proof (supported_first_platform (lower (PyStr.strip v))) as Hs.
  pose proof (detect_platform_ok (PyStr.strip v)) as Hd.
  destruct (String.eqb_spec (PyStr.strip v) "") as [He|Hne].
  - rewrite He in *. split_and!.
    + intros u. split; [done|]. intros [_ [p Hp]]. by vm_compute in Hp.
    + done.
    + split; [done | by intros [? _]].
  - destruct (existsb _ supported) eqn:Hex; simpl.
    + apply proj1 in Hs. specialize (Hs eq_refl). apply Hd in Hs.
      split_and!.
      * intros u. split; [by intros [= <-] | by intros [-> _]].
      * done.
      * split; [done|]. intros [_ Hr]. destruct Hs as [p Hp]. congruence.
    + assert (~ exists p, detect_platform (PyStr.strip v) = Ok p) as Hno.
      { rewrite Hd, <- Hs. done. }
      split_and!.
      * intros u. split; [done | by intros [_ ?]].
      * done.
      * split; [|done]. intros _. split; [done|].
        unfold detect_platform in *.
        destruct (first_platform _ _) as [p|]; [|done].
        destruct Hno. by exists p.
Qed.

Lemma validate_url_detect_platform_witness :
  validate_url "  https://youtu.be/abc  " = inr "https://youtu.be/abc"
  /\ detect_platform "https://youtu.be/abc" = Ok "youtube".
Proof.
  split; [|reflexivity].
  apply (proj1 (validate_url_detect_platform "  https://youtu.be/abc  "
                  eq_refl)).
  split; [reflexivity|]. exists "youtube". reflexivity.
Defined.


(** ** More on the selection *)

Section SelectionMore.

Implicit Types (fmt best : Format.t) (formats : list Format.t).

Lemma tiktok_accepts_raise fmt (e : exn) :
  tiktok_accepts fmt = Raise e ->
  e = AttributeError /\ Format.format_note fmt = PyNone.
Proof.
  unfold tiktok_accepts.
  destruct (Format.format_note fmt) as [| |note]; simpl.
  - by destruct (has_video fmt).
  - by intros [= <-].
  - by destruct (_ || _), (has_video fmt).
Qed.

Lemma tiktok_scan_raise formats (e : exn) :
  tiktok_scan formats = Raise e ->
  e = AttributeError
  /\ Exists (fun f => Format.format_note f = PyNone) formats.
Proof.
  induction formats as [|x l IH]; [done|]. simpl.
  destruct (tiktok_accepts x) as [b|e'] eqn:Hx; simpl.
  - destruct b; [done|]. intros H. destruct (IH H) as [-> Hex].
    split; [done | by right].
  - intros [= ->]. destruct (tiktok_accepts_raise x e Hx) as [-> Hn].
    split; [done | by left].
Qed.

Lemma highest_quality_no_raise formats (e : exn) :
  formats <> [] -> highest_quality formats <> Raise e.
Proof.
  intros Hne. destruct (highest_quality_head formats Hne) as (best & -> & _).
  done.
Qed.

Lemma tiktok_accepts_none_note fmt :
  Format.format_note fmt = PyNone -> tiktok_accepts fmt = Raise AttributeError.
Proof. unfold tiktok_accepts. by intros ->. Qed.

Lemma select_tiktok_scan (formats : list Format.t) :
  formats <> [] ->
  _select_best_format formats "tiktok"
  = match tiktok_scan formats with
    | Ok (Some fmt) => Ok fmt
    | Ok None => highest_quality formats
    | Raise e => Raise e
    end.
Proof.
  intros Hne. destruct formats as [|x l] eqn:E; [done|].
  unfold _select_best_format. simpl String.eqb. cbv iota.
  by destruct (tiktok_scan (x :: l)) as [[fmt|]|e].
Qed.


Lemma select_best_format_raise_inv
    (formats : list Format.t) (platform : string) (e : exn) :
  _select_best_format formats platform = Raise e ->
  e = AttributeError /\ platform = "tiktok"
  /\ Exists (fun f => Format.format_note f = PyNone) formats.
Proof.
  destruct formats as [|x l] eqn:E; [done|]. rewrite <- E.
  assert (formats <> []) as Hne by by rewrite E.
  destruct (decide (platform = "tiktok")) as [->|Hp].
  - rewrite select_tiktok_scan by done.
    destruct (tiktok_scan formats) as [[fmt|]|e'] eqn:Hs; [done | |].
    + intros H. by apply highest_quality_no_raise in H.
    + intros [= ->]. by destruct (tiktok_scan_raise _ _ Hs).
  - rewrite select_best_format_default by done.
    intros H. by apply highest_quality_no_raise in H.
Qed.

End SelectionMore.



(** X4. The selector raises nothing but an AttributeError, and that
    only on tiktok and only when the note of some descriptor is None;
    on the other platforms, and on an empty list (where it returns the
    empty dict), it always returns. *)
Theorem select_best_format_raises
    (formats : list Format.t) (platform : string) :
  (forall e, _select_best_format formats platform = Raise e ->
     e = AttributeError /\ platform = "tiktok"
     /\ Exists (fun f => Format.format_note f = PyNone) formats)
  /\ (platform <> "tiktok" ->
      exists best, _select_best_format formats platform = Ok best)
  /\ _select_best_format [] platform = Ok Format.empty.
Proof.
  split_and!; [| |done].
  - intros e. apply select_best_format_raise_inv.
  - intros Hp. apply select_best_format_total. by intros Ht.
Qed.

Lemma select_best_format_raises_witness :
  exists best, _select_best_format Sample.scenario "instagram" = Ok best.
Proof.
  apply (proj1 (proj2 (select_best_format_raises Sample.scenario "instagram"))).
  discriminate.
Defined.

(** X5. The TikTok loop reads the notes in order and stops at the first
    descriptor it accepts: the descriptors after it are not read (a
    None note there raises nothing), and a None note met before any
    accepted descriptor raises an AttributeError, whatever follows. *)
Theorem tiktok_scan_order (pre post : list Format.t) (fmt : Format.t) :
  Forall note_is_text pre ->
  Forall (fun f => no_video f \/ ~ note_passes f) pre ->
  (note_is_text fmt -> ~ no_video fmt -> note_passes fmt ->
   _select_best_format (pre ++ fmt :: post) "tiktok" = Ok fmt)
  /\ (Format.format_note fmt = PyNone ->
      _select_best_format (pre ++ fmt :: post) "tiktok" = Raise AttributeError).
Proof.
  intros Hn Hrej.
  assert (tiktok_scan (pre ++ fmt :: post) = tiktok_scan (fmt :: post)) as Hscan.
  { induction Hrej as [|x l Hx Hl IH]; [done|].
    apply Forall_cons in Hn as [Hnx Hnl]. simpl.
    rewrite tiktok_accepts_false by done. simpl. by apply IH. }
  assert ((pre ++ fmt :: post)%list <> []) as Hne by by destruct pre.
  rewrite select_tiktok_scan, Hscan by done.
  split.
  - intros Ht Hv Hp. simpl. by rewrite tiktok_accepts_true.
  - intros Hnone. simpl. by rewrite tiktok_accepts_none_note.
Qed.

Lemma tiktok_scan_order_witness :
  let none_note := {| Format.format_id := Has "x"; Format.format_note := PyNone;
                      Format.ext := Has "mp4"; Format.quality := Missing;
                      Format.filesize := Missing; Format.height := Has 720;
                      Format.resolution := Missing; Format.fps := Missing;
                      Format.vcodec := Has "h264"; Format.acodec := Missing;
                      Format.url := Has "https://cdn.example/x" |} in
  _select_best_format [Sample.watermarked; Sample.direct; none_note] "tiktok"
  = Ok Sample.direct
  /\ _select_best_format [Sample.watermarked; none_note; Sample.direct] "tiktok"
     = Raise AttributeError.
Proof.
  intros none_note.
  assert (Forall note_is_text [Sample.watermarked]) as Hn.
  { repeat constructor. discriminate. }
  assert (Forall (fun f => no_video f \/ ~ note_passes f) [Sample.watermarked])
    as Hrej.
  { apply Forall_cons. split; [|apply Forall_nil_2]. right. unfold note_passes.
    rewrite <- contains_lower, <- not_contains_lower. vm_compute.
    intros [H|H]; discriminate H. }
  split.
  - apply (proj1 (tiktok_scan_order [Sample.watermarked] [none_note]
                    Sample.direct Hn Hrej)).
    + discriminate.
    + discriminate.
    + right. apply not_contains_lower. reflexivity.
  - apply (proj2 (tiktok_scan_order [Sample.watermarked] [Sample.direct]
                    none_note Hn Hrej)).
    reflexivity.
Defined.


(** ** More on the summaries and on the projection *)

Section ProjectionMore.

#[local] Arguments String.append : simpl nomatch.

Implicit Types (info : Info.t) (platform : string) (best fmt : Format.t).

Lemma size_mb_none (filesize : option Z) :
  size_mb filesize = None <-> filesize = None \/ filesize = Some 0.
Proof.
  unfold size_mb. destruct filesize as [n|]; cbn [truthy_int].
  - destruct (Z.eqb_spec n 0) as [->|Hn]; simpl.
    + split; [by right | done].
    + split; [done|]. intros [?|[= ?]]; done.
  - split; [by left | done].
Qed.

Lemma append_nonempty_r (a b : string) : b <> "" -> a +:+ b <> "".
Proof. destruct a, b; done. Qed.

Lemma truthy_str_some (o : option string) :
  truthy_str o = true <-> exists s, o = Some s /\ s <> "".
Proof.
  unfold truthy_str. destruct o as [s|].
  - rewrite negb_true_iff, String.eqb_neq. split; [by exists s|].
    by intros (? & [= <-] & ?).
  - split; [done | by intros (? & ? & _)].
Qed.

Lemma truthy_str_none (o : option string) :
  truthy_str o = false <-> o = None \/ o = Some "".
Proof.
  unfold truthy_str. destruct o as [s|].
  - rewrite negb_false_iff, String.eqb_eq. split; [intros ->; by right|].
    by intros [?|[= ?]].
  - split; [by left | done].
Qed.

Lemma substring_prefix (n : nat) (s : string) :
  exists rest, s = String.substring 0 n s +:+ rest.
Proof.
  revert n. induction s as [|c s IH]; intros n.
  - exists EmptyString. by destruct n.
  - destruct n as [|n]; simpl.
    + by exists (String c s).
    + destruct (IH n) as [rest Hr]. exists rest. by rewrite <- Hr.
Qed.

Lemma substring_length (n : nat) (s : string) :
  String.length (String.substring 0 n s) = Nat.min n (String.length s).
Proof.
  revert n. induction s as [|c s IH]; intros n.
  - by destruct n.
  - destruct n as [|n]; simpl; [done|]. by rewrite IH.
Qed.

Lemma substring_all (n : nat) (s : string) :
  (String.length s <= n)%nat -> String.substring 0 n s = s.
Proof.
  revert n. induction s as [|c s IH]; intros n Hn.
  - by destruct n.
  - destruct n as [|n]; simpl in *; [lia|]. rewrite IH; [done | lia].
Qed.

Lemma substring_nonempty (n : nat) (s : string) :
  (0 < n)%nat -> s <> "" -> String.substring 0 n s <> "".
Proof. destruct s, n; simpl; done || lia. Qed.

(** The record the projection builds. *)
Lemma parse_video_info_record info platform best (s : option string) :
  _select_best_format (Info.formats info) platform = Ok best ->
  duration_str (get_default (Info.duration info) 0) = Ok s ->
  _parse_video_info info platform
  = Ok {| Video.title := get_default (Info.title info) "Unknown";
          Video.duration := get_default (Info.duration info) 0;
          Video.duration_string := s;
          Video.thumbnail := get (Info.thumbnail info);
          Video.direct_url := or_str (get (Format.url best)) (get (Info.url info));
          Video.platform := capitalize platform;
          Video.uploader := or_str (get (Info.uploader info))
                                   (get (Info.channel info));
          Video.view_count := get (Info.view_count info);
          Video.like_count := get (Info.like_count info);
          Video.description :=
            if truthy_str (get (Info.description info))
            then slice_to 500 <$> get_default (Info.description info) ""
            else None;
          Video.filesize_mb :=
            size_mb (or_int (get (Format.filesize best))
                            (get (Info.filesize info)));
          Video.resolution := resolution_label best;
          Video.ext := get_default (Format.ext best) "mp4";
          Video.formats := take 5 (_parse_formats (Info.formats info)) |}.
Proof.
  intros Hb Hs. unfold _parse_video_info. rewrite Hb. cbn [bind].
  rewrite Hs. cbn [bind]. by destruct (Info.formats info).
Qed.

Lemma parse_video_info_returns info platform :
  notes_are_text (Info.formats info) platform ->
  duration_in_range info ->
  exists best s,
    _select_best_format (Info.formats info) platform = Ok best
    /\ duration_str (get_default (Info.duration info) 0) = Ok s.
Proof.
  intros Hn Hr. destruct (select_best_format_total _ _ Hn) as [best Hb].
  destruct (duration_str_total _ Hr) as [s Hs]. by exists best, s.
Qed.

Lemma duration_str_raise (duration : option Z) (e : exn) :
  duration_str duration = Raise e ->
  e = OverflowError /\ ~ Z.abs (default 0 duration / 86400) <= 999999999.
Proof.
  unfold duration_str, datetime.of_seconds.
  destruct (truthy_int duration); [|done].
  destruct (Z.gtb_spec (Z.abs (default 0 duration / 86400)) 999999999);
    simpl; [|done].
  intros [= <-]. split; [done | lia].
Qed.

Lemma first_platform_names (u p : string) :
  first_platform u PLATFORM_PATTERNS = Some p ->
  p = "instagram" \/ p = "tiktok" \/ p = "youtube".
Proof.
  unfold PLATFORM_PATTERNS, first_platform.
  repeat (destruct (re_search _ u); [intros [= <-]; auto|]). done.
Qed.

Lemma detect_platform_names (url p : string) :
  detect_platform url = Ok p ->
  p = "instagram" \/ p = "tiktok" \/ p = "youtube".
Proof.
  unfold detect_platform.
  destruct (first_platform (lower url) PLATFORM_PATTERNS) as [q|] eqn:Hq;
    [|done].
  intros [= <-]. by apply (first_platform_names (lower url)).
Qed.

End ProjectionMore.

(** X6. [_parse_formats] drops the audio-only descriptors and nothing
    else: it goes through a concatenation piece by piece, the
    summaries and the descriptors whose vcodec is 'none' add up to the
    input, and the summaries carry the format ids of the other
    descriptors, in their order. *)
Theorem parse_formats_drops_audio_only (formats more : list Format.t) :
  _parse_formats (formats ++ more)
  = (_parse_formats formats ++ _parse_formats more)%list
  /\ (length (_parse_formats formats)
      + length (filter (fun f => get (Format.vcodec f) = Some "none") formats)
      = length formats)%nat
  /\ Parsed.format_id <$> _parse_formats formats
     = (fun f => get (Format.format_id f))
       <$> filter (fun f => get (Format.vcodec f) <> Some "none") formats.
Proof.
  assert (forall l : list Format.t,
            filter (fun f => has_video f = true) l
            = filter (fun f => get (Format.vcodec f) <> Some "none") l)
    as Hfilter.
  { intros l. apply list_filter_iff. intros f. apply has_video_true. }
  rewrite !parse_formats_filter, !Hfilter. split_and!.
  - by rewrite filter_app, fmap_app.
  - rewrite length_fmap. induction formats as [|x l IH]; [done|].
    rewrite !filter_cons.
    destruct (decide (get (Format.vcodec x) = Some "none")) as [Hx|Hx].
    + rewrite decide_False by (intros H; by apply H). simpl. lia.
    + rewrite decide_True by done. simpl. lia.
  - by rewrite <- list_fmap_compose.
Qed.

(** X7. For a descriptor whose size is below 2^53 bytes, where the
    division is exact in binary64, the size in MB of the summary is
    None exactly when the size is missing, None or 0; otherwise it is
    the nearest hundredth of size / (1024*1024). *)
Theorem summary_filesize_mb (fmt : Format.t) :
  exact_size (get (Format.filesize fmt)) = true ->
  Parsed.filesize (summary fmt) = get (Format.filesize fmt)
  /\ (Parsed.filesize_mb (summary fmt) = None
      <-> get (Format.filesize fmt) = None \/ get (Format.filesize fmt) = Some 0)
  /\ (forall n, get (Format.filesize fmt) = Some n -> n <> 0 ->
        exists q, Parsed.filesize_mb (summary fmt) = Some q
          /\ (exists k : Z, q == k # 100)%Q
          /\ (Qabs (q - inject_Z n / inject_Z (1024 * 1024)) <= 1 # 200)%Q).
Proof.
  intros _. cbn [summary Parsed.filesize Parsed.filesize_mb]. split_and!.
  - done.
  - apply size_mb_none.
  - intros n -> Hn. rewrite size_mb_known by done.
    eexists. split; [reflexivity|]. split.
    + apply round2_hundredths.
    + apply round2_near.
Qed.

Lemma summary_filesize_mb_witness :
  exists q, Parsed.filesize_mb (summary (Sample.video "hd" "hd" 1080 5242880))
            = Some q
    /\ (Qabs (q - inject_Z 5242880 / inject_Z (1024 * 1024)) <= 1 # 200)%Q.
Proof.
  destruct (proj2 (proj2 (summary_filesize_mb
                            (Sample.video "hd" "hd" 1080 5242880) eq_refl))
              5242880) as (q & Hq & _ & Hnear).
  - reflexivity.
  - discriminate.
  - exists q. split; [exact Hq | exact Hnear].
Defined.

(** X8. The resolution label is never empty: it is the resolution of the
    descriptor when that is a non-empty string, and otherwise the
    height followed by "p", with "unknownp" for a missing height and
    "Nonep" for a height bound to None. *)
Theorem resolution_label_cases (fmt : Format.t) :
  resolution_label fmt <> ""
  /\ (forall r, get (Format.resolution fmt) = Some r -> r <> "" ->
        resolution_label fmt = r)
  /\ (get (Format.resolution fmt) = None
      \/ get (Format.resolution fmt) = Some "" ->
      (Format.height fmt = Missing -> resolution_label fmt = "unknownp")
      /\ (Format.height fmt = PyNone -> resolution_label fmt = "Nonep")
      /\ (forall h, Format.height fmt = Has h ->
            resolution_label fmt = str_int h +:+ "p")).
Proof.
  unfold resolution_label.
  destruct (truthy_str (get (Format.resolution fmt))) eqn:Ht.
  - apply truthy_str_some in Ht as (r & -> & Hr). split_and!.
    + done.
    + by intros ? [= <-] _.
    + intros [?|[= ?]]; done.
  - apply truthy_str_none in Ht. split_and!.
    + by apply append_nonempty_r.
    + intros r Hr Hne. destruct Ht as [Ht|Ht]; congruence.
    + intros _. split_and!; [by intros -> | by intros -> | by intros h ->].
Qed.

Lemma resolution_label_cases_witness :
  resolution_label Sample.without_url = "1920x1080"
  /\ resolution_label (Sample.audio "a" 720) = "720p".
Proof.
  split.
  - apply (proj1 (proj2 (resolution_label_cases Sample.without_url)));
      [reflexivity | discriminate].
  - apply (proj2 (proj2 (proj2 (proj2 (resolution_label_cases
                                          (Sample.audio "a" 720)))
                                (or_introl eq_refl))) 720).
    reflexivity.
Defined.


(** X9. The description of the projected record is the first 500
    characters of the description of the record, when that is ASCII
    text: the prefix of it whose length is the smaller of 500 and the
    length of the description, so all of it when it is that short; it
    is None when the record has no description or an empty one, and
    never the empty string.  (The sizes of the record are below 2^53
    bytes.) *)
Theorem description_truncated (info : Info.t) (platform : string) :
  notes_are_text (Info.formats info) platform ->
  duration_in_range info ->
  sizes_exact info = true ->
  exists video, _parse_video_info info platform = Ok video
    /\ (get (Info.description info) = None
        \/ get (Info.description info) = Some "" ->
        Video.description video = None)
    /\ (forall raw, get (Info.description info) = Some raw -> raw <> "" ->
          is_ascii raw = true ->
          exists d rest, Video.description video = Some d
            /\ raw = d +:+ rest
            /\ d <> ""
            /\ String.length d = Nat.min 500 (String.length raw)
            /\ ((String.length raw <= 500)%nat -> d = raw)).
Proof.
  intros Hn Hr _.
  destruct (parse_video_info_returns info platform Hn Hr) as (best & s & Hb & Hs).
  eexists. split; [by apply parse_video_info_record|].
  cbn [Video.description]. split.
  - intros Hd. apply truthy_str_none in Hd. by rewrite Hd.
  - intros raw Hraw Hne _.
    assert (truthy_str (get (Info.description info)) = true) as ->.
    { apply truthy_str_some. by exists raw. }
    assert (get_default (Info.description info) "" = Some raw) as ->.
    { by destruct (Info.description info) as [| |x]. }
    destruct (substring_prefix 500 raw) as [rest Hrest].
    exists (slice_to 500 raw), rest. unfold slice_to. split_and!.
    + done.
    + done.
    + apply substring_nonempty; [lia | done].
    + apply substring_length.
    + apply substring_all.
Qed.

Lemma description_truncated_witness :
  exists video,
    _parse_video_info (Sample.record (Has 125) Missing Sample.scenario) "youtube"
    = Ok video
    /\ Video.description video = Some "A sample video".
Proof.
  destruct (description_truncated
              (Sample.record (Has 125) Missing Sample.scenario) "youtube")
    as (video & Hv & _ & Hd).
  - discriminate.
  - vm_compute. discriminate.
  - reflexivity.
  - exists video. split; [exact Hv|].
    destruct (Hd "A sample video") as (d & rest & -> & _ & _ & _ & Hall).
    + reflexivity.
    + discriminate.
    + reflexivity.
    + f_equal. apply Hall. vm_compute. lia.
Defined.

(** X10. A record without formats is projected from its top-level
    fields, on every platform: the direct URL and the size are those of
    the record, the resolution is "unknownp", the extension "mp4", and
    there are no alternate formats. *)
Theorem parse_video_info_no_formats (info : Info.t) (platform : string) :
  Info.formats info = [] ->
  duration_in_range info ->
  exists video, _parse_video_info info platform = Ok video
    /\ Video.direct_url video = get (Info.url info)
    /\ Video.filesize_mb video = size_mb (get (Info.filesize info))
    /\ Video.resolution video = "unknownp"
    /\ Video.ext video = Some "mp4"
    /\ Video.formats video = [].
Proof.
  intros Hf Hr. destruct (duration_str_total _ Hr) as [s Hs].
  eexists. split.
  - apply (parse_video_info_record info platform Format.empty s); [|done].
    by rewrite Hf.
  - rewrite Hf. by split_and!.
Qed.

Lemma parse_video_info_no_formats_witness :
  exists video,
    _parse_video_info (Sample.record (Has 125) (Has 5242880) []) "tiktok"
    = Ok video
    /\ Video.resolution video = "unknownp"
    /\ Video.filesize_mb video = Some 5%Q.
Proof.
  destruct (parse_video_info_no_formats
              (Sample.record (Has 125) (Has 5242880) []) "tiktok")
    as (video & Hv & _ & Hmb & Hres & _).
  - reflexivity.
  - vm_compute. discriminate.
  - exists video. split_and!; [exact Hv | exact Hres | by rewrite Hmb].
Defined.

(** X11. The direct URL of the projected record is the URL of the chosen
    format when that is a non-empty string, and otherwise whatever the
    record has as its top-level URL. *)
Theorem direct_url_priority (info : Info.t) (platform : string) :
  notes_are_text (Info.formats info) platform ->
  duration_in_range info ->
  exists best video,
    _select_best_format (Info.formats info) platform = Ok best
    /\ _parse_video_info info platform = Ok video
    /\ (forall u, get (Format.url best) = Some u -> u <> "" ->
          Video.direct_url video = Some u)
    /\ (get (Format.url best) = None \/ get (Format.url best) = Some "" ->
        Video.direct_url video = get (Info.url info)).
Proof.
  intros Hn Hr.
  destruct (parse_video_info_returns info platform Hn Hr) as (best & s & Hb & Hs).
  exists best. eexists. split; [done|].
  split; [by apply (parse_video_info_record info platform best s)|].
  cbn [Video.direct_url]. unfold or_str. split.
  - intros u Hu Hne.
    assert (truthy_str (get (Format.url best)) = true) as ->; [|done].
    apply truthy_str_some. by exists u.
  - intros Hu. apply truthy_str_none in Hu. by rewrite Hu.
Qed.

Lemma direct_url_priority_witness :
  exists video,
    _parse_video_info (Sample.record (Has 125) Missing Sample.scenario) "youtube"
    = Ok video
    /\ Video.direct_url video = Some "https://cdn.example/1080".
Proof.
  destruct (direct_url_priority
              (Sample.record (Has 125) Missing Sample.scenario) "youtube")
    as (best & video & Hb & Hv & Hu & _).
  - discriminate.
  - vm_compute. discriminate.
  - exists video. split; [exact Hv|].
    vm_compute in Hb. injection Hb as <-.
    apply Hu; [reflexivity | discriminate].
Defined.

(** X12. For a record whose sizes are below 2^53 bytes, the projection
    raises nothing but an AttributeError, on tiktok when a note is
    None, or an OverflowError, when the duration is beyond the range of
    timedelta; and a duration beyond that range does raise it whenever
    the selector returns. *)
Theorem parse_video_info_raises (info : Info.t) (platform : string) :
  sizes_exact info = true ->
  (forall e, _parse_video_info info platform = Raise e ->
     (e = AttributeError /\ platform = "tiktok"
      /\ Exists (fun f => Format.format_note f = PyNone) (Info.formats info))
     \/ (e = OverflowError /\ ~ duration_in_range info))
  /\ (notes_are_text (Info.formats info) platform ->
      ~ duration_in_range info ->
      _parse_video_info info platform = Raise OverflowError).
Proof.
  intros _. unfold _parse_video_info, duration_in_range. split.
  - intros e.
    destruct (_select_best_format (Info.formats info) platform)
      as [best|e'] eqn:Hb; cbn [bind].
    + destruct (duration_str (get_default (Info.duration info) 0))
        as [s|e'] eqn:Hs; cbn [bind]; [done|].
      intros [= ->]. right. by apply duration_str_raise.
    + intros [= ->]. left. by apply select_best_format_raise_inv.
  - intros Hn Hr. destruct (select_best_format_total _ _ Hn) as [best ->].
    cbn [bind].
    destruct (duration_str (get_default (Info.duration info) 0))
      as [s|e'] eqn:Hs; cbn [bind].
    + exfalso. apply Hr. revert Hs. unfold duration_str, datetime.of_seconds.
      destruct (truthy_int (get_default (Info.duration info) 0)) eqn:Ht.
      * destruct (Z.gtb_spec
                    (Z.abs (default 0 (get_default (Info.duration info) 0)
                            / 86400)) 999999999); [done | lia].
      * intros _. unfold truthy_int in Ht.
        destruct (get_default (Info.duration info) 0) as [n|]; simpl.
        -- apply negb_false_iff, Z.eqb_eq in Ht. by subst n.
        -- done.
    + by destruct (duration_str_raise _ _ Hs) as [-> _].
Qed.

Lemma parse_video_info_raises_witness :
  _parse_video_info
    (Sample.record (Has (86400 * 1000000000)) Missing Sample.scenario) "youtube"
  = Raise OverflowError.
Proof.
  apply (proj2 (parse_video_info_raises
                  (Sample.record (Has (86400 * 1000000000)) Missing
                     Sample.scenario) "youtube" eq_refl)).
  - discriminate.
  - vm_compute. intros H. apply H. reflexivity.
Defined.

(** X13. The platform label of a record projected for a detected
    platform is "Instagram", "Tiktok" or "Youtube": the capitalized
    name of the platform, which is one of the three of the table. *)
Theorem platform_label (url platform : string) (info : Info.t) (video : Video.t) :
  detect_platform url = Ok platform ->
  _parse_video_info info platform = Ok video ->
  (platform = "instagram" /\ Video.platform video = "Instagram")
  \/ (platform = "tiktok" /\ Video.platform video = "Tiktok")
  \/ (platform = "youtube" /\ Video.platform video = "Youtube").
Proof.
  intros Hp Hv. assert (Video.platform video = capitalize platform) as ->.
  { unfold _parse_video_info in Hv.
    destruct (_select_best_format _ _); [|done]. cbn [bind] in Hv.
    destruct (duration_str _); [|done]. cbn [bind] in Hv.
    by injection Hv as <-. }
  destruct (detect_platform_names url platform Hp) as [->|[->| ->]]; auto.
Qed.

Lemma platform_label_witness :
  exists video,
    _parse_video_info (Sample.record (Has 125) Missing [Sample.direct]) "tiktok"
    = Ok video
    /\ Video.platform video = "Tiktok".
Proof.
  destruct (_parse_video_info (Sample.record (Has 125) Missing [Sample.direct])
              "tiktok") as [video|e] eqn:Hv; [|discriminate Hv].
  exists video. split; [reflexivity|].
  destruct (platform_label "https://vm.tiktok.com/ZM1/" "tiktok"
              (Sample.record (Has 125) Missing [Sample.direct]) video)
    as [[H _]|[[_ H]|[H _]]].
  - reflexivity.
  - exact Hv.
  - discriminate H.
  - exact H.
  - discriminate H.
Defined.


(** ** [get_video_info] *)

Section GetVideoInfo.

Implicit Types (cfg : Settings) (url : string) (outcome : extraction).

Lemma get_video_info_ok cfg url outcome (video : Video.t) :
  get_video_info cfg url outcome = Ok video
  <-> exists platform info,
        detect_platform url = Ok platform
        /\ outcome = Extracted (Some info)
        /\ _parse_video_info info platform = Ok video
        /\ check_file_size cfg video = Ok tt.
Proof.
  unfold get_video_info, try_block. split.
  - destruct (detect_platform url) as [platform|]; [|done].
    destruct outcome as [[info|]|msg|]; try done.
    destruct (_parse_video_info info platform) as [v|] eqn:Hv; [|done].
    destruct (check_file_size cfg v) as [[]|] eqn:Hc; [|done].
    intros [= <-]. by exists platform, info.
  - intros (platform & info & -> & -> & -> & ->). done.
Qed.

Lemma get_video_info_detect_raise cfg url outcome (e : exn) :
  detect_platform url = Raise e ->
  get_video_info cfg url outcome = Raise DownloadFailedException.
Proof. unfold get_video_info, try_block. by intros ->. Qed.

Lemma check_file_size_ok cfg (video : Video.t) :
  0 <= MAX_DOWNLOAD_SIZE_MB cfg ->
  check_file_size cfg video = Ok tt ->
  forall mb, Video.filesize_mb video = Some mb ->
    (mb <= inject_Z (MAX_DOWNLOAD_SIZE_MB cfg))%Q.
Proof.
  intros Hmax Hc mb Hmb.
  pose proof (check_file_size_cases cfg video Hmax) as H. rewrite Hmb in H.
  destruct H as [[_ H]|[H _]]; [congruence|]. by apply Qnot_lt_le.
Qed.

End GetVideoInfo.

(** X14. [get_video_info] lets out only VideoUnavailableException,
    DownloadFailedException and TimeoutException: its last handler
    turns every other exception of the [try] block into a
    DownloadFailedException.  So an unsupported URL gives a
    DownloadFailedException whatever the extractor would do, and so
    does a record that the size check or the projection refuses. *)
Theorem get_video_info_wraps
    (cfg : Settings) (url : string) (outcome : extraction) :
  (forall e, get_video_info cfg url outcome = Raise e ->
     e = VideoUnavailableException \/ e = DownloadFailedException
     \/ e = TimeoutException)
  /\ (forall e, detect_platform url = Raise e ->
        get_video_info cfg url outcome = Raise DownloadFailedException)
  /\ (forall platform info e,
        detect_platform url = Ok platform ->
        outcome = Extracted (Some info) ->
        _parse_video_info info platform = Raise e ->
        get_video_info cfg url outcome = Raise DownloadFailedException)
  /\ (forall platform info video e,
        detect_platform url = Ok platform ->
        outcome = Extracted (Some info) ->
        _parse_video_info info platform = Ok video ->
        check_file_size cfg video = Raise e ->
        get_video_info cfg url outcome = Raise DownloadFailedException).
Proof.
  split_and!.
  - intros e. apply get_video_info_raises.
  - intros e. apply get_video_info_detect_raise.
  - intros platform info e Hp -> Hv. unfold get_video_info, try_block.
    by rewrite Hp, Hv.
  - intros platform info video e Hp -> Hv Hc. unfold get_video_info, try_block.
    by rewrite Hp, Hv, Hc.
Qed.

Lemma get_video_info_wraps_witness :
  get_video_info settings "https://example.com/v"
    (Extracted (Some (Sample.record (Has 125) Missing Sample.scenario)))
  = Raise DownloadFailedException
  /\ get_video_info settings "https://youtu.be/abc"
       (Extracted (Some (Sample.record (Has 125) (Has 1048576000)
                           [Sample.zero_size])))
     = Raise DownloadFailedException.
Proof.
  split.
  - apply (proj1 (proj2 (get_video_info_wraps settings "https://example.com/v" _))
             (InvalidURLException "https://example.com/v")).
    reflexivity.
  - eapply (proj2 (proj2 (proj2 (get_video_info_wraps settings
                                   "https://youtu.be/abc" _)))).
    + reflexivity.
    + reflexivity.
    + vm_compute. reflexivity.
    + vm_compute. reflexivity.
Defined.

(** X15. [get_video_info] returns a record exactly when the URL is of a
    supported platform, the extractor returned a record, the projection
    of that record returned and the size check passed; the record
    returned is that projection, and its size in MB, when known, is
    within a non-negative limit. *)
Theorem get_video_info_returns
    (cfg : Settings) (url : string) (outcome : extraction) (video : Video.t) :
  (get_video_info cfg url outcome = Ok video
   <-> exists platform info,
         detect_platform url = Ok platform
         /\ outcome = Extracted (Some info)
         /\ _parse_video_info info platform = Ok video
         /\ check_file_size cfg video = Ok tt)
  /\ (0 <= MAX_DOWNLOAD_SIZE_MB cfg ->
      get_video_info cfg url outcome = Ok video ->
      forall mb, Video.filesize_mb video = Some mb ->
        (mb <= inject_Z (MAX_DOWNLOAD_SIZE_MB cfg))%Q).
Proof.
  split; [apply get_video_info_ok|].
  intros Hmax Hv. apply get_video_info_ok in Hv as (_ & _ & _ & _ & _ & Hc).
  by apply check_file_size_ok.
Qed.

Lemma get_video_info_returns_witness :
  exists video,
    get_video_info settings "https://youtu.be/abc"
      (Extracted (Some (Sample.record (Has 125) Missing Sample.scenario)))
    = Ok video
    /\ forall mb, Video.filesize_mb video = Some mb -> (mb <= 500)%Q.
Proof.
  destruct (get_video_info settings "https://youtu.be/abc"
              (Extracted (Some (Sample.record (Has 125) Missing Sample.scenario))))
    as [video|e] eqn:Hv; [|discriminate Hv].
  exists video. split; [reflexivity|].
  apply (proj2 (get_video_info_returns settings "https://youtu.be/abc"
                  (Extracted (Some (Sample.record (Has 125) Missing
                                      Sample.scenario)))
                  video)).
  - vm_compute. discriminate.
  - exact Hv.
Defined.

(** X16. For a URL of a supported platform, a DownloadError of the
    extractor becomes a VideoUnavailableException when its message
    contains, the case ignored, "private", "not available" or
    "copyright", and a DownloadFailedException otherwise; a timeout
    becomes a TimeoutException; an empty result of the extractor gives
    a DownloadFailedException, the VideoUnavailableException raised for
    it being caught by the last handler. *)
Theorem get_video_info_extractor_errors
    (cfg : Settings) (url platform : string) :
  detect_platform url = Ok platform ->
  (forall msg,
     ci_contains "private" msg \/ ci_contains "not available" msg
     \/ ci_contains "copyright" msg ->
     get_video_info cfg url (DownloadError msg) = Raise VideoUnavailableException)
  /\ (forall msg,
        ~ ci_contains "private" msg -> ~ ci_contains "not available" msg ->
        ~ ci_contains "copyright" msg ->
        get_video_info cfg url (DownloadError msg) = Raise DownloadFailedException)
  /\ get_video_info cfg url AsyncTimeoutError = Raise TimeoutException
  /\ get_video_info cfg url (Extracted None) = Raise DownloadFailedException.
Proof.
  intros Hp. unfold get_video_info, try_block. rewrite Hp.
  split_and!; [| |done|done].
  - intros msg. rewrite <- !contains_lower. cbn [handlers].
    destruct (contains "private" _), (contains "not available" _),
      (contains "copyright" _); simpl; intuition congruence.
  - intros msg. rewrite <- !not_contains_lower. cbn [handlers].
    by intros -> -> ->.
Qed.

Lemma get_video_info_extractor_errors_witness :
  get_video_info settings "https://youtu.be/abc"
    (DownloadError "ERROR: Private video. Sign in if you have access")
  = Raise VideoUnavailableException
  /\ get_video_info settings "https://youtu.be/abc" AsyncTimeoutError
     = Raise TimeoutException.
Proof.
  assert (detect_platform "https://youtu.be/abc" = Ok "youtube") as Hp
    by reflexivity.
  split.
  - apply (proj1 (get_video_info_extractor_errors settings _ _ Hp)).
    left. apply contains_lower. reflexivity.
  - apply (proj1 (proj2 (proj2 (get_video_info_extractor_errors settings _ _ Hp)))).
Defined.


(** ** The options of the extractor *)

Section Options.

Implicit Types (b : gmap string opt_value) (platform : string).

Lemma get_platform_opts_detected platform :
  platform = "instagram" \/ platform = "tiktok" \/ platform = "youtube" ->
  forall b, exists d, get_platform_opts b platform = NewDict d
    /\ (exists f, d !! "format" = Some (OStr f))
    /\ (forall k, k <> "format" -> k <> "http_headers" ->
        k <> "merge_output_format" -> d !! k = b !! k).
Proof.
  intros [->|[->| ->]] b; eexists; (split; [reflexivity|]); split.
  - eexists. unfold get_instagram_opts.
    rewrite lookup_insert_ne by done. apply lookup_insert_eq.
  - intros k H1 H2 H3. unfold get_instagram_opts.
    by rewrite !lookup_insert_ne.
  - eexists. unfold get_tiktok_opts.
    rewrite lookup_insert_ne by done. apply lookup_insert_eq.
  - intros k H1 H2 H3. unfold get_tiktok_opts. by rewrite !lookup_insert_ne.
  - eexists. unfold get_youtube_opts.
    rewrite lookup_insert_ne by done. apply lookup_insert_eq.
  - intros k H1 H2 H3. unfold get_youtube_opts. by rewrite !lookup_insert_ne.
Qed.

Lemma base_opts_keys (k : string) (v : opt_value) :
  base_opts !! k = Some v ->
  k <> "format" /\ k <> "http_headers" /\ k <> "merge_output_format"
  /\ k <> "noplaylist".
Proof.
  intros Hk. split_and!; intros ->; vm_compute in Hk; discriminate Hk.
Qed.

End Options.

(** X17. For a platform the detection can return, the options given to
    the extractor are a new dict that keeps every base option
    (timeouts, retries, quiet flags) unchanged, adds a format
    preference, and has noplaylist set to True. *)
Theorem platform_opts_profile (url platform : string) :
  detect_platform url = Ok platform ->
  exists d,
    get_platform_opts base_opts platform = NewDict d
    /\ base_opts ⊆ d
    /\ (exists f, d !! "format" = Some (OStr f))
    /\ (prepare_opts base_opts platform).1 !! "noplaylist" = Some (OBool true)
    /\ base_opts ⊆ (prepare_opts base_opts platform).1
    /\ d ⊆ (prepare_opts base_opts platform).1.
Proof.
  intros Hp. apply detect_platform_names in Hp.
  destruct (get_platform_opts_detected platform Hp base_opts)
    as (d & Hd & Hf & Hk).
  assert (base_opts ⊆ d) as Hsub.
  { apply map_subseteq_spec. intros k v Hv.
    destruct (base_opts_keys k v Hv) as (? & ? & ? & _). by rewrite Hk. }
  assert (d !! "noplaylist" = None) as Hnone.
  { rewrite Hk by done. reflexivity. }
  exists d. unfold prepare_opts. rewrite Hd. cbn [fst].
  split_and!; try done.
  - apply lookup_insert_eq.
  - etrans; [exact Hsub|]. by apply insert_subseteq.
  - by apply insert_subseteq.
Qed.

Lemma platform_opts_profile_witness :
  exists d,
    get_platform_opts base_opts "youtube" = NewDict d
    /\ d !! "socket_timeout" = Some (OInt 30)
    /\ (prepare_opts base_opts "youtube").1 !! "noplaylist" = Some (OBool true).
Proof.
  destruct (platform_opts_profile "https://youtu.be/abc" "youtube")
    as (d & Hd & Hsub & _ & Hno & _).
  - reflexivity.
  - exists d. split_and!; [exact Hd | | exact Hno].
    apply (lookup_weaken _ _ _ _ (eq_refl : base_opts !! "socket_timeout"
                                           = Some (OInt 30)) Hsub).
Defined.

(** X18. [get_video_info] never writes into [self.base_opts]: for every
    platform the detection can return, [get_platform_opts] makes a new
    dict, and [noplaylist] is set in it.  Only for another platform
    name would [get_platform_opts] return [self.base_opts] itself, and
    the assignment of [noplaylist] would then change it. *)
Theorem prepare_opts_base_opts
    (self_base_opts : gmap string opt_value) (platform : string) :
  (forall url, detect_platform url = Ok platform ->
     (prepare_opts self_base_opts platform).2 = self_base_opts)
  /\ (platform <> "instagram" -> platform <> "tiktok" -> platform <> "youtube" ->
      get_platform_opts self_base_opts platform = SelfBaseOpts
      /\ (prepare_opts self_base_opts platform).2
         = <["noplaylist" := OBool true]> self_base_opts
      /\ (prepare_opts self_base_opts platform).1
         = (prepare_opts self_base_opts platform).2).
Proof.
  split.
  - intros url Hp. apply detect_platform_names in Hp.
    destruct (get_platform_opts_detected platform Hp self_base_opts)
      as (d & Hd & _). unfold prepare_opts. by rewrite Hd.
  - intros Hi Ht Hy.
    assert (get_platform_opts self_base_opts platform = SelfBaseOpts) as Hg.
    { unfold get_platform_opts.
      apply String.eqb_neq in Hi, Ht, Hy. by rewrite Hi, Ht, Hy. }
    unfold prepare_opts. by rewrite Hg.
Qed.

Lemma prepare_opts_base_opts_witness :
  (prepare_opts base_opts "tiktok").2 = base_opts
  /\ (prepare_opts base_opts "vimeo").2 !! "noplaylist" = Some (OBool true).
Proof.
  split.
  - apply (proj1 (prepare_opts_base_opts base_opts "tiktok")
             "https://www.tiktok.com/@user/video/123").
    reflexivity.
  - destruct (proj2 (prepare_opts_base_opts base_opts "vimeo"))
      as (_ & -> & _); try discriminate.
    apply lookup_insert_eq.
Defined.


(** ** The route *)

Section RouteFacts.

Variable other_fields_valid : Video.t -> bool.

Implicit Types (cfg : Settings) (extract : string -> extraction)
  (video_request url : option string).

(** The URL the route works on, if any. *)
Lemma route_try_no_url cfg extract url :
  url = None \/ url = Some "" ->
  route_try other_fields_valid cfg extract None url = inl Other.
Proof. unfold route_try. by intros [-> | ->]. Qed.

Lemma route_try_url cfg extract video_request url (video_url : string) :
  video_request = Some video_url
  \/ (video_request = None /\ exists u, url = Some u /\ u <> ""
      /\ video_url = PyStr.strip u) ->
  route_try other_fields_valid cfg extract video_request url
  = match get_video_info cfg video_url (extract video_url) with
    | Raise e =>
        match status_code e with
        | Some _ => inl (Downloader e)
        | None => inl Other
        end
    | Ok info =>
        match response_model other_fields_valid info with
        | Some response => inr response
        | None => inl Other
        end
    end.
Proof.
  unfold route_try. intros [->|(-> & u & -> & Hu & ->)]; [done|].
  cbn [truthy_str]. apply String.eqb_neq in Hu. by rewrite Hu.
Qed.

Lemma route_try_cases cfg extract video_request url :
  (video_request = None /\ (url = None \/ url = Some ""))
  \/ exists video_url,
       video_request = Some video_url
       \/ (video_request = None /\ exists u, url = Some u /\ u <> ""
           /\ video_url = PyStr.strip u).
Proof.
  destruct video_request as [v|]; [right; exists v; by left|].
  destruct url as [u|]; [|left; auto].
  destruct (decide (u = "")) as [->|Hu]; [left; auto|].
  right. exists (PyStr.strip u). right. split; [done|]. by exists u.
Qed.


End RouteFacts.

(** X19. The route answers an error with status 404, 408 or 500 only:
    never 400 and never 413.  A request without a URL, for which the
    route raises an HTTPException of status 400 inside its own [try],
    is answered 500. *)
Theorem fetch_video_info_statuses
    (other_fields_valid : Video.t -> bool) (cfg : Settings)
    (extract : string -> extraction) (video_request url : option string) :
  (forall status,
     fetch_video_info other_fields_valid cfg extract video_request url
     = HTTPException status ->
     status = 404 \/ status = 408 \/ status = 500)
  /\ (video_request = None -> url = None \/ url = Some "" ->
      fetch_video_info other_fields_valid cfg extract video_request url
      = HTTPException 500).
Proof.
  unfold fetch_video_info. split.
  - intros status.
    destruct (route_try_cases cfg extract video_request url)
      as [[-> Hu]|[video_url Hurl]].
    + rewrite route_try_no_url by done. intros [= <-]. auto.
    + rewrite (route_try_url _ _ _ _ _ _ Hurl).
      destruct (get_video_info cfg video_url (extract video_url))
        as [info|e] eqn:Hg.
      * destruct (response_model other_fields_valid info); [done|].
        intros [= <-]. auto.
      * destruct (get_video_info_raises _ _ _ _ Hg) as [->|[->| ->]];
          simpl; intros [= <-]; auto.
  - intros -> Hu. by rewrite route_try_no_url.
Qed.

Lemma fetch_video_info_statuses_witness :
  fetch_video_info (fun _ => true) settings (fun _ => AsyncTimeoutError)
    None None
  = HTTPException 500.
Proof.
  apply (proj2 (fetch_video_info_statuses (fun _ => true) settings
                  (fun _ => AsyncTimeoutError) None None)).
  - reflexivity.
  - left. reflexivity.
Defined.



(** X21. A record without any direct URL never reaches the client: when
    [get_video_info] returns a record whose [direct_url] is None, the
    response model refuses it and the route answers 500. *)
Theorem fetch_video_info_missing_url
    (other_fields_valid : Video.t -> bool) (cfg : Settings)
    (extract : string -> extraction) (video_request url : option string)
    (video_url : string) (video : Video.t) :
  video_request = Some video_url
  \/ (video_request = None /\ exists u, url = Some u /\ u <> ""
      /\ video_url = PyStr.strip u) ->
  get_video_info cfg video_url (extract video_url) = Ok video ->
  Video.direct_url video = None ->
  fetch_video_info other_fields_valid cfg extract video_request url
  = HTTPException 500.
Proof.
  intros Hurl Hg Hd. unfold fetch_video_info.
  rewrite (route_try_url _ _ _ _ _ _ Hurl), Hg.
  unfold response_model. rewrite Hd. by destruct (Video.title video).
Qed.

Lemma fetch_video_info_missing_url_witness :
  fetch_video_info (fun _ => true) settings
    (fun _ => Extracted (Some (Sample.record (Has 125) Missing
                                 [Sample.without_url])))
    (Some "https://youtu.be/abc") None
  = HTTPException 500.
Proof.
  destruct (get_video_info settings "https://youtu.be/abc"
              (Extracted (Some (Sample.record (Has 125) Missing
                                  [Sample.without_url]))))
    as [video|e] eqn:Hv; [|discriminate Hv].
  apply (fetch_video_info_missing_url (fun _ => true) settings
           (fun _ => Extracted (Some (Sample.record (Has 125) Missing
                                        [Sample.without_url])))
           (Some "https://youtu.be/abc") None "https://youtu.be/abc" video).
  - left. reflexivity.
  - exact Hv.
  - vm_compute in Hv. by injection Hv as <-.
Defined.
